(** * excel_to_ics: spreadsheet rows to iCalendar files

    A shallow embedding of [src/excel_to_ics.py] and the properties of
    its row-to-calendar transform.

    Conventions of the embedding.
    - A Python [str] is a [string]; every [ascii] stands for one code
      point below 256, so the character tests below are Python's
      [str.isspace] and [str.lower] on that range.
    - A Python [int] is a [Z].
    - A raised exception is the [Raise] case of [result]; sequencing of
      statements is the bind of that monad.
    - The libraries the script calls (dateutil's parser, pytz, the
      icalendar serializer) are the fields of the classes [Platform],
      [Parser] and [Serializer]: the script is verified against their
      interface. *)

From Stdlib Require Import ZArith Lia Ascii String List Bool DecimalString.
From Stdlib Require Import DecimalZ DecimalPos.
From stdpp Require Import base list strings gmap sorting.

Local Open Scope Z_scope.

(** ** Exceptions *)

Inductive exn :=
| ValueError (msg : string)
| KeyError (key : string)
| TypeError
| OverflowError.

Inductive result (A : Type) :=
| Ok (a : A)
| Raise (e : exn).
Arguments Ok {A} a.
Arguments Raise {A} e.

#[global] Instance result_ret : MRet result := fun A a => Ok a.
#[global] Instance result_bind : MBind result :=
  fun A B f m => match m with Ok a => f a | Raise e => Raise e end.

#[global] Instance result_fmap : FMap result :=
  fun A B f m => match m with Ok a => Ok (f a) | Raise e => Raise e end.

Definition raises {A} (r : result A) : Prop := exists e, r = Raise e.

(** ** Strings *)

Module Str.

Definition code (c : ascii) : N := N_of_ascii c.

Definition in_range (lo hi c : ascii) : bool :=
  ((code lo <=? code c) && (code c <=? code hi))%N.

(** [str.isspace] on one character; also the class [\s] of [re] on
    a [str] pattern. *)
Definition isspace (c : ascii) : bool :=
  let n := code c in
  ((9 <=? n) && (n <=? 13) || (28 <=? n) && (n <=? 32)
   || (n =? 133) || (n =? 160))%N.

Definition isupper (c : ascii) : bool :=
  let n := code c in
  ((65 <=? n) && (n <=? 90)
   || (192 <=? n) && (n <=? 222) && negb (n =? 215))%N.

Definition lower_char (c : ascii) : ascii :=
  if isupper c then ascii_of_N (code c + 32) else c.

(** [s.lower()] *)
Fixpoint lower (s : string) : string :=
  match s with
  | EmptyString => EmptyString
  | String c s' => String (lower_char c) (lower s')
  end.

Fixpoint lstrip (p : ascii -> bool) (s : string) : string :=
  match s with
  | EmptyString => EmptyString
  | String c s' => if p c then lstrip p s' else s
  end.

Fixpoint rstrip (p : ascii -> bool) (s : string) : string :=
  match s with
  | EmptyString => EmptyString
  | String c s' =>
      match rstrip p s' with
      | EmptyString => if p c then EmptyString else String c EmptyString
      | r => String c r
      end
  end.

(** [s.strip()] with a set of characters given as a predicate. *)
Definition strip_with (p : ascii -> bool) (s : string) : string :=
  rstrip p (lstrip p s).

(** [s.strip()] *)
Definition strip (s : string) : string := strip_with isspace s.

(** [s.strip(chars)] *)
Definition strip_chars (chars : string) (s : string) : string :=
  strip_with (fun c => existsb (Ascii.eqb c) (list_ascii_of_string chars)) s.

(** [sep.join(parts)] *)
Fixpoint join (sep : string) (parts : list string) : string :=
  match parts with
  | [] => ""
  | [p] => p
  | p :: rest => p +:+ sep +:+ join sep rest
  end.

(** [x or default] on strings: the empty string is falsy. *)
Definition or_else (s default : string) : string :=
  match s with EmptyString => default | _ => s end.

(** [str(n)] for an [int]. *)
Definition of_Z (n : Z) : string := NilZero.string_of_int (Z.to_int n).

Definition all_chars (p : ascii -> bool) (s : string) : bool :=
  forallb p (list_ascii_of_string s).

Definition contains (c : ascii) (s : string) : bool :=
  existsb (Ascii.eqb c) (list_ascii_of_string s).

(** The line feed of ["\n"]. *)
Definition nl : string := String (ascii_of_nat 10) EmptyString.

End Str.

(** ** The fragment of [re] the script uses

    A pattern is a sequence of character classes, each taken once,
    zero or more times or one or more times; repetition is greedy and
    backtracks, as in [re]. *)

Module Re.

Inductive quant := Once | Star | Plus.

Record atom := Atom { cls : ascii -> bool; rep : quant }.

Definition regex := list atom.

(** Greedy repetition of class [p] followed by the continuation
    [k]; the result is the text left after the match. *)
Fixpoint match_star (p : ascii -> bool) (k : string -> option string)
    (s : string) : option string :=
  match s with
  | String c s' =>
      if p c then
        match match_star p k s' with
        | Some r => Some r
        | None => k s
        end
      else k s
  | EmptyString => k s
  end.

(** A match that starts at the first character of [s]. *)
Fixpoint match_here (re : regex) (s : string) : option string :=
  match re with
  | [] => Some s
  | a :: re' =>
      match rep a with
      | Once =>
          match s with
          | String c s' => if cls a c then match_here re' s' else None
          | EmptyString => None
          end
      | Star => match_star (cls a) (match_here re') s
      | Plus =>
          match s with
          | String c s' =>
              if cls a c then match_star (cls a) (match_here re') s'
              else None
          | EmptyString => None
          end
      end
  end.

(** Leftmost match: the text before it and the text after it. *)
Fixpoint search (re : regex) (s : string) : option (string * string) :=
  match match_here re s with
  | Some r => Some (EmptyString, r)
  | None =>
      match s with
      | EmptyString => None
      | String c s' =>
          match search re s' with
          | Some (before, after) => Some (String c before, after)
          | None => None
          end
      end
  end.

(** [re.split(pattern, s, maxsplit=1)] for a pattern without groups. *)
Definition split1 (re : regex) (s : string) : list string :=
  match search re s with
  | Some (before, after) => [before; after]
  | None => [s]
  end.

(** [re.sub(pattern, repl, s)] for a pattern that matches no empty
    text: a match is replaced and the scan resumes after it, an
    unmatched character is copied.  The scan consumes a character at
    every step, so [length s] steps are enough. *)
Fixpoint sub_fuel (fuel : nat) (re : regex) (repl s : string) : string :=
  match fuel with
  | O => s
  | S fuel' =>
      match s with
      | EmptyString => EmptyString
      | String c s' =>
          match match_here re s with
          | Some r =>
              if (String.length r <? String.length s)%nat
              then repl +:+ sub_fuel fuel' re repl r
              else String c (sub_fuel fuel' re repl s')
          | None => String c (sub_fuel fuel' re repl s')
          end
      end
  end.

Definition sub (re : regex) (repl s : string) : string :=
  sub_fuel (String.length s) re repl s.

(** [[A-Za-z0-9_-]] *)
Definition word_or_dash (c : ascii) : bool :=
  Str.in_range "A" "Z" c || Str.in_range "a" "z" c
  || Str.in_range "0" "9" c || Ascii.eqb c "_" || Ascii.eqb c "-".

(** [r"[^A-Za-z0-9_-]+"] *)
Definition unsafe_run : regex :=
  [Atom (fun c => negb (word_or_dash c)) Plus].

(** [r"\s*-\s*"] *)
Definition hyphen : regex :=
  [Atom Str.isspace Star; Atom (Ascii.eqb "-") Once; Atom Str.isspace Star].

End Re.

(** ** [safe_filename] *)

Definition safe_filename (title : string) (row_index : Z) : string :=
  let safe :=
    Str.or_else (Str.strip_chars "_" (Re.sub Re.unsafe_run "_" title)) "event" in
  safe +:+ "_" +:+ Str.of_Z row_index +:+ ".ics".

(** The part of the file name that comes from the title. *)
Definition safe_stem (title : string) : string :=
  Str.or_else (Str.strip_chars "_" (Re.sub Re.unsafe_run "_" title)) "event".

(** The characters a file name is made of: [A-Za-z0-9_-] and the dot
    of the extension. *)
Definition filename_char (c : ascii) : bool :=
  Re.word_or_dash c || Ascii.eqb c ".".

(** The characters of [str(n)] for an [int]. *)
Definition digit_or_minus (c : ascii) : bool :=
  Str.in_range "0" "9" c || Ascii.eqb c "-".

(** ** [datetime], [time] and [timedelta]

    The fields are those of the Python objects.  [fold] is left out:
    no operation of the script reads it. *)

Module Greg.

Definition MINYEAR : Z := 1.
Definition MAXYEAR : Z := 9999.

Definition is_leap (y : Z) : bool :=
  (y mod 4 =? 0) && (negb (y mod 100 =? 0) || (y mod 400 =? 0)).

Definition days_in_month (y m : Z) : Z :=
  if m =? 2 then (if is_leap y then 29 else 28)
  else if (m =? 4) || (m =? 6) || (m =? 9) || (m =? 11) then 30
  else 31.

(** Days in the years before year [y]. *)
Definition days_before_year (y : Z) : Z :=
  let p := y - 1 in p * 365 + p / 4 - p / 100 + p / 400.

(** Days of year [y] before the first of month [m]. *)
Definition days_before_month (y m : Z) : Z :=
  nth (Z.to_nat m) [0; 0; 31; 59; 90; 120; 151; 181; 212; 243; 273; 304; 334] 0
  + (if (2 <? m) && is_leap y then 1 else 0).

(** [date.toordinal()]: 1 is 0001-01-01. *)
Definition ymd2ord (y m d : Z) : Z :=
  days_before_year y + days_before_month y m + d.

Definition valid_date (y m d : Z) : bool :=
  (MINYEAR <=? y) && (y <=? MAXYEAR) && (1 <=? m) && (m <=? 12)
  && (1 <=? d) && (d <=? days_in_month y m).

Definition valid_time (h mi s us : Z) : bool :=
  (0 <=? h) && (h <=? 23) && (0 <=? mi) && (mi <=? 59)
  && (0 <=? s) && (s <=? 59) && (0 <=? us) && (us <=? 999999).

(** The day after and the day before, [None] outside
    0001-01-01 .. 9999-12-31. *)
Definition next_day (ymd : Z * Z * Z) : option (Z * Z * Z) :=
  let '(y, m, d) := ymd in
  if d <? days_in_month y m then Some (y, m, d + 1)
  else if m <? 12 then Some (y, m + 1, 1)
  else if y <? MAXYEAR then Some (y + 1, 1, 1)
  else None.

Definition prev_day (ymd : Z * Z * Z) : option (Z * Z * Z) :=
  let '(y, m, d) := ymd in
  if 1 <? d then Some (y, m, d - 1)
  else if 1 <? m then Some (y, m - 1, days_in_month y (m - 1))
  else if MINYEAR <? y then Some (y - 1, 12, 31)
  else None.

Fixpoint iter_day (step : Z * Z * Z -> option (Z * Z * Z)) (n : nat)
    (ymd : Z * Z * Z) : option (Z * Z * Z) :=
  match n with
  | O => Some ymd
  | S n' => match step ymd with Some x => iter_day step n' x | None => None end
  end.

(** The date [k] days away. *)
Definition shift_days (k : Z) (ymd : Z * Z * Z) : option (Z * Z * Z) :=
  if 0 <=? k then iter_day next_day (Z.to_nat k) ymd
  else iter_day prev_day (Z.to_nat (- k)) ymd.

End Greg.

Record timedelta := MkTimedelta {
  td_days : Z;
  td_seconds : Z;
  td_microseconds : Z
}.

#[global] Instance timedelta_eq_dec : EqDecision timedelta.
Proof. solve_decision. Defined.

Definition td_total_microseconds (t : timedelta) : Z :=
  (td_days t * 86400 + td_seconds t) * 1000000 + td_microseconds t.

(** [timedelta(days=.., seconds=.., microseconds=.., minutes=.., hours=..)]
    on [int] arguments: the value is normalised and a magnitude above
    999999999 days is refused. *)
Definition timedelta_new (days seconds microseconds minutes hours : Z)
    : result timedelta :=
  let us := microseconds
            + 1000000 * (seconds + 60 * minutes + 3600 * hours + 86400 * days) in
  let d := us / 86400000000 in
  let r := us mod 86400000000 in
  if 999999999 <? Z.abs d then Raise OverflowError
  else Ok (MkTimedelta d (r / 1000000) (r mod 1000000)).

Record time := MkTime {
  t_hour : Z;
  t_minute : Z;
  t_second : Z;
  t_microsecond : Z
}.

Record datetime (T : Type) := MkDatetime {
  year : Z;
  month : Z;
  day : Z;
  hour : Z;
  minute : Z;
  second : Z;
  microsecond : Z;
  tzinfo : option T
}.
Arguments MkDatetime {T} _ _ _ _ _ _ _ _.
Arguments year {T} _.
Arguments month {T} _.
Arguments day {T} _.
Arguments hour {T} _.
Arguments minute {T} _.
Arguments second {T} _.
Arguments microsecond {T} _.
Arguments tzinfo {T} _.

Section Datetime.
Context {T : Type}.

Definition valid_datetime (d : datetime T) : bool :=
  Greg.valid_date (year d) (month d) (day d)
  && Greg.valid_time (hour d) (minute d) (second d) (microsecond d).

Definition valid_time (t : time) : bool :=
  Greg.valid_time (t_hour t) (t_minute t) (t_second t) (t_microsecond t).

(** [datetime(y, m, d, h, mi, s, us, tzinfo)]: fields out of range
    raise [ValueError]. *)
Definition datetime_new (y m d h mi s us : Z) (tz : option T)
    : result (datetime T) :=
  if Greg.valid_date y m d && Greg.valid_time h mi s us
  then Ok (MkDatetime y m d h mi s us tz)
  else Raise (ValueError "field out of range").

(** [d.replace(hour=h, minute=mi, second=s, microsecond=us)] *)
Definition replace_time (d : datetime T) (h mi s us : Z) : result (datetime T) :=
  datetime_new (year d) (month d) (day d) h mi s us (tzinfo d).

(** [d.time()] *)
Definition time_of (d : datetime T) : time :=
  MkTime (hour d) (minute d) (second d) (microsecond d).

(** The fields of a datetime in comparison order. *)
Definition fields (d : datetime T) : list Z :=
  [year d; month d; day d; hour d; minute d; second d; microsecond d].

Fixpoint lex_compare (a b : list Z) : comparison :=
  match a, b with
  | x :: a', y :: b' =>
      match x ?= y with Eq => lex_compare a' b' | c => c end
  | [], [] => Eq
  | [], _ :: _ => Lt
  | _ :: _, [] => Gt
  end.

(** Comparison of the wall-clock fields alone. *)
Definition base_compare (a b : datetime T) : comparison :=
  lex_compare (fields a) (fields b).

(** Microseconds from 0001-01-01 on the wall clock. *)
Definition wall_microseconds (d : datetime T) : Z :=
  ((Greg.ymd2ord (year d) (month d) (day d) - 1) * 86400
   + hour d * 3600 + minute d * 60 + second d) * 1000000 + microsecond d.

(** [d + td]: wall-clock arithmetic that keeps [tzinfo]; a result
    outside 0001-01-01 .. 9999-12-31 raises [OverflowError]. *)
Definition datetime_add (d : datetime T) (td : timedelta) : result (datetime T) :=
  let us := microsecond d + td_microseconds td in
  let s := hour d * 3600 + minute d * 60 + second d + td_seconds td
           + us / 1000000 in
  let days := td_days td + s / 86400 in
  let r := s mod 86400 in
  match Greg.shift_days days (year d, month d, day d) with
  | Some (y, m, dd) =>
      Ok (MkDatetime y m dd (r / 3600) (r mod 3600 / 60) (r mod 60)
            (us mod 1000000) (tzinfo d))
  | None => Raise OverflowError
  end.

End Datetime.

(** ** The libraries behind the script *)

(** Time zones: the [tzinfo] objects, pytz and what Python's [str]
    prints for a datetime. *)
Class Platform := {
  TzInfo : Type;
  TzInfo_eq_dec :: EqDecision TzInfo;
  (** [tzinfo.utcoffset(dt)] *)
  tz_utcoffset : TzInfo -> datetime TzInfo -> option timedelta;
  (** [pytz.timezone(name)] *)
  pytz_timezone : string -> result TzInfo;
  (** [tz.localize(dt)] *)
  tz_localize : TzInfo -> datetime TzInfo -> datetime TzInfo;
  (** [dt.astimezone(tz)] *)
  astimezone : datetime TzInfo -> TzInfo -> datetime TzInfo;
  (** [str(dt)] *)
  str_datetime : datetime TzInfo -> string
}.

(** [dateutil.parser.parse(text)], as it answers during one run: the
    fields a text leaves out are filled from the date of the run. *)
Class Parser `{Platform} := {
  date_parser_parse : string -> result (datetime TzInfo)
}.

Section Compare.
Context `{Platform}.

(** [d.utcoffset()] *)
Definition utcoffset (d : datetime TzInfo) : option timedelta :=
  match tzinfo d with
  | None => None
  | Some z => tz_utcoffset z d
  end.

(** The three-way comparison behind [<], [<=], [>], [>=] on
    datetimes: the same [tzinfo] object or equal offsets compare the
    fields; a naive and an aware value raise [TypeError]; otherwise
    the instants are compared. *)
Definition datetime_cmp (a b : datetime TzInfo) : result comparison :=
  if decide (tzinfo a = tzinfo b) then Ok (base_compare a b)
  else
    let oa := utcoffset a in
    let ob := utcoffset b in
    if decide (oa = ob) then Ok (base_compare a b)
    else
      match oa, ob with
      | Some x, Some y =>
          Ok (wall_microseconds a - td_total_microseconds x
              ?= wall_microseconds b - td_total_microseconds y)
      | _, _ => Raise TypeError
      end.

(** [a <= b] *)
Definition datetime_le (a b : datetime TzInfo) : result bool :=
  c ← datetime_cmp a b;
  mret (match c with Gt => false | _ => true end).

End Compare.

(** ** Cells, rows and calendar components *)

Section Data.
Context `{Platform}.

(** A spreadsheet cell as pandas hands it over: text, a date/time
    value, or any other object, kept with the text [str] gives for
    it (a number, a missing cell read as [nan]). *)
Inductive cell :=
| CStr (s : string)
| CDatetime (d : datetime TzInfo)
| COther (text : string).

(** [str(value)] *)
Definition py_str (v : cell) : string :=
  match v with
  | CStr s => s
  | CDatetime d => str_datetime d
  | COther text => text
  end.


(** A [dict] with [str] keys: the items in insertion order. *)
Definition dict := list (string * cell).

Fixpoint dict_lookup (row : dict) (key : string) : option cell :=
  match row with
  | [] => None
  | (k, v) :: row' => if String.eqb k key then Some v else dict_lookup row' key
  end.

(** [row.get(key, default)] *)
Definition dict_get (row : dict) (key : string) (default : cell) : cell :=
  match dict_lookup row key with Some v => v | None => default end.

(** [row[key]] *)
Definition dict_item (row : dict) (key : string) : result cell :=
  match dict_lookup row key with Some v => Ok v | None => Raise (KeyError key) end.

(** [row[key] = v]: a present key keeps its place. *)
Fixpoint dict_set (key : string) (v : cell) (row : dict) : dict :=
  match row with
  | [] => [(key, v)]
  | (k, w) :: row' =>
      if String.eqb k key then (k, v) :: row' else (k, w) :: dict_set key v row'
  end.

(** A value of an icalendar property. *)
Inductive value :=
| VText (s : string)
| VDatetime (d : datetime TzInfo)
| VDuration (td : timedelta)
| VBool (b : bool).

(** An icalendar component: its name, its properties in the order
    they were added, its sub-components. *)
#[warnings="-register-all"]
Inductive component :=
| Component (name : string) (props : list (string * value)) (subs : list component).

Definition comp_name (c : component) : string :=
  match c with Component n _ _ => n end.
Definition comp_props (c : component) : list (string * value) :=
  match c with Component _ p _ => p end.
Definition comp_subs (c : component) : list component :=
  match c with Component _ _ s => s end.

(** [c.add(name, v)] *)
Definition add (name : string) (v : value) (c : component) : component :=
  match c with Component n p s => Component n (p ++ [(name, v)]) s end.

(** [c.add_component(sub)] *)
Definition add_component (sub : component) (c : component) : component :=
  match c with Component n p s => Component n p (s ++ [sub]) end.

(** The values stored under a property name. *)
Definition prop (name : string) (c : component) : list value :=
  map snd (List.filter (fun kv => String.eqb (fst kv) name) (comp_props c)).

(** The sub-components of a given kind. *)
Definition subcomponents (kind : string) (c : component) : list component :=
  List.filter (fun sub => String.eqb (comp_name sub) kind) (comp_subs c).

End Data.

(** [icalendar]'s serializer, [component.to_ical()]. *)
Class Serializer `{Platform} := {
  to_ical : component -> string
}.

(** ** The functions of the script *)

Definition REQUIRED_COLUMNS : gset string :=
  {[ "title"; "date"; "time"; "venue" ]}.

(** A [DataFrame]: the column labels and the rows of cells.  The
    labels are texts, as pandas gives them for a header row of text
    cells. *)
Record DataFrame `{Platform} := MkDataFrame {
  columns : list string;
  rows : list (list cell)
}.

(** [sorted(xs)] on strings. *)
Definition sorted (xs : list string) : list string := merge_sort String.le xs.

Section Script.
Context `{Platform} `{!Parser} `{!Serializer}.

(** [df.rename(columns=mapping)] *)
Definition rename_columns (mapping : string -> string) (df : DataFrame) : DataFrame :=
  MkDataFrame _ (map mapping (columns df)) (rows df).

Definition normalize_columns (df : DataFrame) : result DataFrame :=
  let mapping := fun col => Str.lower (Str.strip col) in
  let df := rename_columns mapping df in
  let missing : gset string := REQUIRED_COLUMNS ∖ list_to_set (columns df) in
  if decide (missing = ∅) then Ok df
  else Raise (ValueError ("Missing required columns: "
                          +:+ Str.join ", " (sorted (elements missing)))).

Definition parse_datetime (value : cell) (tz : TzInfo) : result (datetime TzInfo) :=
  dt ← match value with
       | CDatetime d => Ok d
       | _ => date_parser_parse (py_str value)
       end;
  mret (match tzinfo dt with
        | None => tz_localize tz dt
        | Some _ => astimezone dt tz
        end).

Definition parse_time_range (value : cell) : result (time * time) :=
  let parts := Re.split1 Re.hyphen (py_str value) in
  if negb (length parts =? 2)%nat then
    Raise (ValueError "Time column must contain a start and end time separated by a hyphen (e.g., '9:00 AM - 10:00 AM').")
  else
    start ← date_parser_parse (nth 0 parts EmptyString);
    stop ← date_parser_parse (nth 1 parts EmptyString);
    mret (time_of start, time_of stop).

Definition row_description (row : dict) : string :=
  let lines :=
    fold_left
      (fun lines kv => lines ++ ["- " +:+ fst kv +:+ ": " +:+ py_str (snd kv)])
      row ["Event details from spreadsheet:"] in
  Str.join Str.nl lines.

Definition build_event (row : dict) (tz : TzInfo) (alert_minutes : Z)
    : result component :=
  let title :=
    Str.or_else (Str.strip (py_str (dict_get row "title" (CStr "Event")))) "Event" in
  let venue := Str.strip (py_str (dict_get row "venue" (CStr ""))) in

  date_cell ← dict_item row "date";
  start ← parse_datetime date_cell tz;
  time_cell ← dict_item row "time";
  '(start_time, end_time) ← parse_time_range time_cell;

  dtstart ← replace_time start (t_hour start_time) (t_minute start_time)
              (t_second start_time) 0;
  dtend ← replace_time start (t_hour end_time) (t_minute end_time)
            (t_second end_time) 0;
  not_after ← datetime_le dtend dtstart;
  dtend ← (if not_after : bool
           then hour_ ← timedelta_new 0 0 0 0 1; datetime_add dtstart hour_
           else Ok dtend);

  let cal := Component "VCALENDAR" [] [] in
  let cal := add "prodid" (VText "-//Excel to ICS Converter//EN") cal in
  let cal := add "version" (VText "2.0") cal in

  let event := Component "VEVENT" [] [] in
  let event := add "summary" (VText title) event in
  let event := add "dtstart" (VDatetime dtstart) event in
  let event := add "dtend" (VDatetime dtend) event in
  let event :=
    match venue with
    | EmptyString => event
    | _ => add "location" (VText venue) event
    end in
  let event := add "description" (VText (row_description row)) event in
  let event := add "transp" (VText "OPAQUE") event in

  let event := add "x-apple-travel-advisory-behavior" (VText "AUTOMATIC") event in
  let event := add "x-apple-travel-duration" (VText "PT0M") event in

  let alert := Component "VALARM" [] [] in
  let alert := add "action" (VText "DISPLAY") alert in
  let alert := add "description" (VText "Leave now to arrive on time.") alert in
  trigger ← timedelta_new 0 0 0 (- Z.abs alert_minutes) 0;
  let alert := add "trigger" (VDuration trigger) alert in
  let alert := add "x-apple-local-default-alarm" (VBool true) alert in
  let alert := add "x-apple-default-alarm" (VBool true) alert in
  let event := add_component alert event in

  let cal := add_component event cal in
  mret cal.

(** The parts of [build_event], named for the statements below. *)

(** The summary: the title cell's text, ["Event"] when blank. *)
Definition event_title (row : dict) : string :=
  Str.or_else (Str.strip (py_str (dict_get row "title" (CStr "Event")))) "Event".

Definition event_venue (row : dict) : string :=
  Str.strip (py_str (dict_get row "venue" (CStr ""))).

(** The end of the event, from its start and the end time of day
    put on the start's date. *)
Definition event_end (dtstart dtend : datetime TzInfo) : result (datetime TzInfo) :=
  not_after ← datetime_le dtend dtstart;
  if not_after : bool
  then hour_ ← timedelta_new 0 0 0 0 1; datetime_add dtstart hour_
  else Ok dtend.

Definition alarm_of (trigger : timedelta) : component :=
  Component "VALARM"
    [("action", VText "DISPLAY");
     ("description", VText "Leave now to arrive on time.");
     ("trigger", VDuration trigger);
     ("x-apple-local-default-alarm", VBool true);
     ("x-apple-default-alarm", VBool true)] [].

Definition event_of (title venue description : string)
    (dtstart dtend : datetime TzInfo) (trigger : timedelta) : component :=
  Component "VEVENT"
    ([("summary", VText title);
      ("dtstart", VDatetime dtstart);
      ("dtend", VDatetime dtend)]
     ++ match venue with
        | EmptyString => []
        | _ => [("location", VText venue)]
        end
     ++ [("description", VText description);
         ("transp", VText "OPAQUE");
         ("x-apple-travel-advisory-behavior", VText "AUTOMATIC");
         ("x-apple-travel-duration", VText "PT0M")])
    [alarm_of trigger].

Definition calendar_of (event : component) : component :=
  Component "VCALENDAR"
    [("prodid", VText "-//Excel to ICS Converter//EN"); ("version", VText "2.0")]
    [event].

(** *** [main] *)

Record Args := MkArgs {
  excel : string;
  output : string;
  timezone : string;
  alert_minutes_arg : Z
}.

(** What a run does to the outside: the directory it creates, the
    files it writes and the lines it prints, in order.  The file
    system is taken to accept each of them. *)
Inductive effect :=
| Mkdir (dir : string)
| FileWritten (dir name : string) (data : string)
| Printed (dir name : string).

(** A row of [df.iterrows()]: the labels paired with the cells. *)
Definition series := list (string * cell).

(** [series.get(label, default)], on a row whose labels are distinct.
    With a label that two columns carry pandas returns the cells of
    both as a Series, not a cell; such rows are outside this
    definition, and the statements on file names below ask for
    distinct labels. *)
Definition series_get (row : series) (label : string) (default : cell) : cell :=
  dict_get row label default.

(** [series.to_dict()] *)
Definition to_dict (row : series) : dict :=
  fold_left (fun d kv => dict_set (fst kv) (snd kv) d) row [].

(** [df.iterrows()] on the default index 0, 1, 2, ... *)
Fixpoint iterrows_from (idx : Z) (cols : list string) (rs : list (list cell))
    : list (Z * series) :=
  match rs with
  | [] => []
  | r :: rs' => (idx, combine cols r) :: iterrows_from (idx + 1) cols rs'
  end.

Definition iterrows (df : DataFrame) : list (Z * series) :=
  iterrows_from 0 (columns df) (rows df).

(** The file name [main] gives the row at index [idx], for a row
    whose labels are distinct (see [series_get]). *)
Definition row_filename (idx : Z) (row : series) : string :=
  safe_filename (py_str (series_get row "title" (CStr "event"))) (idx + 1).

(** The [for] loop of [main]: the first exception ends the run and
    leaves what was written before. *)
Fixpoint main_loop (a : Args) (tz : TzInfo) (todo : list (Z * series))
    (done_ : list effect) : list effect * result unit :=
  match todo with
  | [] => (done_, Ok tt)
  | (idx, row) :: todo' =>
      match build_event (to_dict row) tz (alert_minutes_arg a) with
      | Raise e => (done_, Raise e)
      | Ok cal =>
          let filename := row_filename idx row in
          main_loop a tz todo'
            (done_ ++ [FileWritten (output a) filename (to_ical cal);
                       Printed (output a) filename])
      end
  end.

(** What the loop does for a row whose calendar is [cal]: the file
    written and the line printed. *)
Definition written (a : Args) (idx : Z) (row : series) (cal : component)
    : list effect :=
  [FileWritten (output a) (row_filename idx row) (to_ical cal);
   Printed (output a) (row_filename idx row)].

(** [main], given the frame [pd.read_excel(args.excel)] returned. *)
Definition main (a : Args) (df : DataFrame) : list effect * result unit :=
  match pytz_timezone (timezone a) with
  | Raise e => ([], Raise e)
  | Ok tz =>
      match normalize_columns df with
      | Raise e => ([], Raise e)
      | Ok df => main_loop a tz (iterrows df) [Mkdir (output a)]
      end
  end.

(** [cals] are the calendars of the rows [todo], in order. *)
Definition built (a : Args) (tz : TzInfo) (todo : list (Z * series))
    (cals : list component) : Prop :=
  Forall2 (fun ir cal => build_event (to_dict ir.2) tz (alert_minutes_arg a) = Ok cal)
    todo cals.

(** What the loop does for rows that all build. *)
Definition all_written (a : Args) (todo : list (Z * series))
    (cals : list component) : list effect :=
  concat (zip_with (fun ir cal => written a ir.1 ir.2 cal) todo cals).

(** The names of the files among the effects of a run. *)
Definition written_names (effs : list effect) : list string :=
  flat_map (fun e => match e with FileWritten _ name _ => [name] | _ => [] end) effs.

End Script.

(** ** The specification's wording, for comparison with the code *)

Module Spec.

(** The maximal runs of a text, each tagged with whether its
    characters are in the class [keep]. *)
Fixpoint runs (keep : ascii -> bool) (s : string) : list (bool * string) :=
  match s with
  | EmptyString => []
  | String c s' =>
      match runs keep s' with
      | (b, r) :: rest =>
          if Bool.eqb b (keep c) then (b, String c r) :: rest
          else (keep c, String c EmptyString) :: (b, r) :: rest
      | [] => [(keep c, String c EmptyString)]
      end
  end.

(** "replacing every run of characters outside [A-Za-z0-9_-] with a
    single underscore" *)
Definition replace_runs (s : string) : string :=
  fold_right
    (fun (run : bool * string) acc => (if fst run then snd run else "_") +:+ acc)
    EmptyString (runs Re.word_or_dash s).

(** "trimming leading/trailing underscores, defaulting to "event" if
    the result is empty, then appending _{1-based row index}.ics" *)
Definition filename (title : string) (row_index : Z) : string :=
  let trimmed := Str.strip_chars "_" (replace_runs title) in
  (if String.eqb trimmed "" then "event" else trimmed)
  +:+ "_" +:+ Str.of_Z row_index +:+ ".ics".

(** The text before the first hyphen and the text after it. *)
Fixpoint cut_at_hyphen (s : string) : option (string * string) :=
  match s with
  | EmptyString => None
  | String c s' =>
      if Ascii.eqb c "-" then Some (EmptyString, s')
      else match cut_at_hyphen s' with
           | Some (a, b) => Some (String c a, b)
           | None => None
           end
  end.

(** "split the time cell on a hyphen (optionally surrounded by
    whitespace)" *)
Definition split_time (s : string) : list string :=
  match cut_at_hyphen s with
  | Some (a, b) => [Str.rstrip Str.isspace a; Str.lstrip Str.isspace b]
  | None => [s]
  end.

(** "- {key}: {value}" *)
Definition field_line `{Platform} (kv : string * cell) : string :=
  "- " +:+ fst kv +:+ ": " +:+ py_str (snd kv).

(** The line feed. *)
Definition lf : ascii := ascii_of_nat 10.

(** The lines of a text: the parts between its line feeds. *)
Fixpoint lines (s : string) : list string :=
  match s with
  | EmptyString => [EmptyString]
  | String c s' =>
      if Ascii.eqb c lf then EmptyString :: lines s'
      else match lines s' with
           | l :: ls => String c l :: ls
           | [] => [String c EmptyString]
           end
  end.

(** The required columns in alphabetical order. *)
Definition required_sorted : list string := ["date"; "time"; "title"; "venue"].

(** The required columns absent from the normalized headers. *)
Definition missing_columns (headers : list string) : list string :=
  List.filter (fun c => bool_decide (c ∉ map (fun h => Str.lower (Str.strip h)) headers))
    required_sorted.

End Spec.

(** The texts [build_event] hands to the parser for a row: the text
    of the date cell, unless the cell is a date/time value already,
    and the two parts of the time cell. *)
Definition consulted_date `{Platform} (row : dict) : list string :=
  match dict_lookup row "date" with
  | None => []
  | Some (CDatetime _) => []
  | Some date_cell => [py_str date_cell]
  end.

Definition consulted_times `{Platform} (row : dict) : list string :=
  match dict_lookup row "time" with
  | None => []
  | Some time_cell =>
      let parts := Re.split1 Re.hyphen (py_str time_cell) in
      if (length parts =? 2)%nat then parts else []
  end.

(** ** A concrete platform for the examples

    One zone, UTC, whose single [tzinfo] object is [tt]; a parser that
    answers as dateutil does on the handful of texts the examples use,
    run on the day [today]; a serializer that prints the property
    names. *)

Module Sample.

Definition pad2 (n : Z) : string :=
  if n <? 10 then "0" +:+ Str.of_Z n else Str.of_Z n.

Definition iso (d : datetime unit) : string :=
  Str.of_Z (year d) +:+ "-" +:+ pad2 (month d) +:+ "-" +:+ pad2 (day d)
  +:+ " " +:+ pad2 (hour d) +:+ ":" +:+ pad2 (minute d) +:+ ":" +:+ pad2 (second d)
  +:+ match tzinfo d with Some _ => "+00:00" | None => "" end.

#[export] Instance utc_only : Platform := {|
  TzInfo := unit;
  tz_utcoffset := fun _ _ => Some (MkTimedelta 0 0 0);
  pytz_timezone := fun name =>
    if String.eqb name "UTC" then Ok tt else Raise (KeyError name);
  tz_localize := fun z d =>
    MkDatetime (year d) (month d) (day d) (hour d) (minute d) (second d)
      (microsecond d) (Some z);
  astimezone := fun d z =>
    MkDatetime (year d) (month d) (day d) (hour d) (minute d) (second d)
      (microsecond d) (Some z);
  str_datetime := iso
|}.

(** A time of day on the day of the run: dateutil fills the date a
    text leaves out from that day. *)
Definition at_time (today : Z * Z * Z) (h mi s : Z) : datetime unit :=
  let '(y, m, d) := today in MkDatetime y m d h mi s 0 None.

Definition parse_on (today : Z * Z * Z) (text : string) : result (datetime unit) :=
  if String.eqb text "2024-03-05" then Ok (MkDatetime 2024 3 5 0 0 0 0 None)
  else if String.eqb text "9999-12-31" then Ok (MkDatetime 9999 12 31 0 0 0 0 None)
  else if String.eqb text "Jan 5" then Ok (MkDatetime (fst (fst today)) 1 5 0 0 0 0 None)
  else if String.eqb text "9:00 AM" then Ok (at_time today 9 0 0)
  else if String.eqb text "10:00 AM" then Ok (at_time today 10 0 0)
  else if String.eqb text "10:00 PM" then Ok (at_time today 22 0 0)
  else if String.eqb text "11:30 PM" then Ok (at_time today 23 30 0)
  else if String.eqb text "1:00 AM" then Ok (at_time today 1 0 0)
  else if String.eqb text "9:00:30" then Ok (at_time today 9 0 30)
  else if String.eqb text "10:00:45" then Ok (at_time today 10 0 45)
  else Raise (ValueError ("Unknown string format: " +:+ text)).

Definition dateutil_on (today : Z * Z * Z) : Parser :=
  {| date_parser_parse := parse_on today |}.

(** The parser of a run on 2024-03-01. *)
#[export] Instance dateutil : Parser := dateutil_on (2024, 3, 1).

Definition show_value (v : value) : string :=
  match v with
  | VText s => s
  | VDatetime d => iso d
  | VDuration td => Str.of_Z (td_total_microseconds td / 60000000) +:+ "M"
  | VBool b => if b then "TRUE" else "FALSE"
  end.

Fixpoint show (c : component) : string :=
  match c with
  | Component n p subs =>
      "BEGIN:" +:+ n +:+ Str.nl
      +:+ fold_right (fun kv acc => fst kv +:+ ":" +:+ show_value (snd kv) +:+ Str.nl +:+ acc) "" p
      +:+ fold_right (fun sub acc => show sub +:+ acc) "" subs
      +:+ "END:" +:+ n +:+ Str.nl
  end.

#[export] Instance printer : Serializer := {| to_ical := show |}.

Definition row1 : dict :=
  [("title", CStr "Team Sync: Q1!!"); ("date", CStr "2024-03-05");
   ("time", CStr "9:00 AM - 10:00 AM"); ("venue", CStr "Room 4");
   ("owner", CStr "ana")].

(** A row whose times of day carry seconds. *)
Definition row_seconds : dict :=
  [("title", CStr "Standup"); ("date", CStr "2024-03-05");
   ("time", CStr "9:00:30 - 10:00:45"); ("venue", CStr "")].

(** A row whose end time of day is before its start. *)
Definition row_overnight : dict :=
  [("title", CStr "Night shift"); ("date", CStr "2024-03-05");
   ("time", CStr "10:00 PM - 1:00 AM"); ("venue", CStr "Dock 2")].

(** A row whose title is blank. *)
Definition row_blank : dict :=
  [("title", CStr "   "); ("date", CStr "2024-03-05");
   ("time", CStr "9:00 AM - 10:00 AM"); ("venue", CStr "")].

(** A row whose date leaves the year out. *)
Definition row_no_year : dict :=
  [("title", CStr "Kickoff"); ("date", CStr "Jan 5");
   ("time", CStr "9:00 AM - 10:00 AM"); ("venue", CStr "")].

(** A row on the last day [datetime] can hold. *)
Definition row_last_day : dict :=
  [("title", CStr "Closing"); ("date", CStr "9999-12-31");
   ("time", CStr "11:30 PM - 1:00 AM"); ("venue", CStr "")].

(** A row with a cell of two lines. *)
Definition row_note : dict :=
  [("note", CStr ("bring badge" +:+ Str.nl +:+ "and laptop"))].

Definition args1 : Args := MkArgs "events.xlsx" "ics_output" "UTC" 30.

Definition frame1 : DataFrame :=
  MkDataFrame _ [" Title "; "DATE"; "Time"; "venue "]
    [[CStr "Team Sync: Q1!!"; CStr "2024-03-05"; CStr "9:00 AM - 10:00 AM"; CStr "Room 4"];
     [CStr "   "; CStr "2024-03-05"; CStr "10:00 PM - 1:00 AM"; CStr ""]].

End Sample.

(** * Properties *)

Import Sample.

(** ** Strings and patterns *)

Lemma append_cons c a b : String c a +:+ b = String c (a +:+ b).
Proof. reflexivity. Qed.

Lemma append_nil b : EmptyString +:+ b = b.
Proof. reflexivity. Qed.

Lemma contains_app c a b :
  Str.contains c (a +:+ b) = Str.contains c a || Str.contains c b.
Proof.
  unfold Str.contains. induction a as [|x a IH]; [reflexivity|].
  rewrite append_cons. cbn [list_ascii_of_string existsb]. now rewrite IH, orb_assoc.
Qed.

Lemma lstrip_length p s : (String.length (Str.lstrip p s) <= String.length s)%nat.
Proof.
  induction s as [|c s IH]; simpl; [lia|].
  destruct (p c); simpl; lia.
Qed.

Lemma match_star_all p s :
  Re.match_star p (fun r => Some r) s = Some (Str.lstrip p s).
Proof.
  induction s as [|c s IH]; simpl; [reflexivity|].
  destruct (p c); [now rewrite IH | reflexivity].
Qed.

Lemma match_unsafe_run c s :
  Re.match_here Re.unsafe_run (String c s) =
  if Re.word_or_dash c then None
  else Some (Str.lstrip (fun x => negb (Re.word_or_dash x)) s).
Proof.
  cbn [Re.match_here Re.unsafe_run Re.rep Re.cls].
  destruct (Re.word_or_dash c); cbn [negb]; [reflexivity|].
  apply (match_star_all (fun x => negb (Re.word_or_dash x))).
Qed.

Lemma runs_head keep c s :
  exists r rest, Spec.runs keep (String c s) = (keep c, r) :: rest.
Proof.
  simpl. destruct (Spec.runs keep s) as [|[b r] rest]; [eauto|].
  destruct (Bool.eqb b (keep c)) eqn:E; [|eauto].
  apply Bool.eqb_prop in E. subst b. eauto.
Qed.

Lemma replace_runs_keep c s :
  Re.word_or_dash c = true ->
  Spec.replace_runs (String c s) = String c (Spec.replace_runs s).
Proof.
  intros Hc. unfold Spec.replace_runs. simpl Spec.runs.
  destruct (Spec.runs Re.word_or_dash s) as [|[b r] rest]; rewrite Hc.
  - reflexivity.
  - destruct b; reflexivity.
Qed.

Lemma replace_runs_unsafe s : forall c,
  Re.word_or_dash c = false ->
  Spec.replace_runs (String c s) =
  "_" +:+ Spec.replace_runs (Str.lstrip (fun x => negb (Re.word_or_dash x)) s).
Proof.
  induction s as [|c' s IH]; intros c Hc.
  - unfold Spec.replace_runs. simpl. now rewrite Hc.
  - destruct (Re.word_or_dash c') eqn:Hc'.
    + cbn [Str.lstrip]. rewrite Hc'. cbn [negb].
      destruct (runs_head Re.word_or_dash c' s) as (r & rest & E).
      unfold Spec.replace_runs.
      change (Spec.runs Re.word_or_dash (String c (String c' s)))
        with (match Spec.runs Re.word_or_dash (String c' s) with
              | (b, r) :: rest =>
                  if Bool.eqb b (Re.word_or_dash c) then (b, String c r) :: rest
                  else (Re.word_or_dash c, String c EmptyString) :: (b, r) :: rest
              | [] => [(Re.word_or_dash c, String c EmptyString)]
              end).
      rewrite E, Hc, Hc'. reflexivity.
    + cbn [Str.lstrip]. rewrite Hc'. cbn [negb].
      rewrite <- (IH c' Hc').
      destruct (runs_head Re.word_or_dash c' s) as (r & rest & E).
      unfold Spec.replace_runs.
      change (Spec.runs Re.word_or_dash (String c (String c' s)))
        with (match Spec.runs Re.word_or_dash (String c' s) with
              | (b, r) :: rest =>
                  if Bool.eqb b (Re.word_or_dash c) then (b, String c r) :: rest
                  else (Re.word_or_dash c, String c EmptyString) :: (b, r) :: rest
              | [] => [(Re.word_or_dash c, String c EmptyString)]
              end).
      rewrite E, Hc, Hc'. reflexivity.
Qed.

Lemma sub_unsafe_run_fuel n : forall s,
  (String.length s <= n)%nat ->
  Re.sub_fuel n Re.unsafe_run "_" s = Spec.replace_runs s.
Proof.
  induction n as [|n IH]; intros s Hn.
  - destruct s; [reflexivity | simpl in Hn; lia].
  - destruct s as [|c s]; [reflexivity|].
    cbn [Re.sub_fuel]. rewrite match_unsafe_run.
    simpl in Hn.
    destruct (Re.word_or_dash c) eqn:Hc.
    + rewrite replace_runs_keep by assumption. f_equal. apply IH. lia.
    + pose proof (lstrip_length (fun x => negb (Re.word_or_dash x)) s) as Hl.
      replace (String.length _ <? String.length (String c s))%nat with true
        by (symmetry; apply Nat.ltb_lt; simpl; lia).
      rewrite replace_runs_unsafe by assumption. f_equal. apply IH. lia.
Qed.

Lemma sub_unsafe_run s : Re.sub Re.unsafe_run "_" s = Spec.replace_runs s.
Proof. apply sub_unsafe_run_fuel. lia. Qed.

Lemma or_else_eqb s d :
  Str.or_else s d = if String.eqb s "" then d else s.
Proof. destruct s; reflexivity. Qed.

(** C6. For every title and row index, the file name the code builds
    with [re.sub], [strip("_")] and the ["event"] fallback is the one
    the specification describes: every run of characters outside
    [A-Za-z0-9_-] replaced by one underscore, underscores trimmed at
    both ends, ["event"] when nothing is left, then [_{index}.ics]; and
    the title ["Team Sync: Q1!!"] at row index 3 gives
    ["Team_Sync_Q1_3.ics"]. *)
Theorem safe_filename_refines_spec :
  (forall (title : string) (row_index : Z),
      safe_filename title row_index = Spec.filename title row_index)
  /\ safe_filename "Team Sync: Q1!!" 3 = "Team_Sync_Q1_3.ics".
Proof.
  split; [|reflexivity].
  intros title row_index. unfold safe_filename, Spec.filename.
  now rewrite sub_unsafe_run, or_else_eqb.
Qed.

(** ** The time range *)

Lemma rstrip_cons p c s :
  Str.rstrip p (String c s) =
  if String.eqb (Str.rstrip p s) "" && p c then EmptyString
  else String c (Str.rstrip p s).
Proof.
  cbn [Str.rstrip]. destruct (Str.rstrip p s); cbn; [destruct (p c)|]; reflexivity.
Qed.

Lemma match_hyphen_tail s :
  Re.match_here [Re.Atom (Ascii.eqb "-") Re.Once; Re.Atom Str.isspace Re.Star] s =
  match s with
  | String c r => if Ascii.eqb "-" c then Some (Str.lstrip Str.isspace r) else None
  | EmptyString => None
  end.
Proof.
  destruct s as [|c r]; [reflexivity|].
  cbn [Re.match_here Re.rep Re.cls].
  destruct (Ascii.eqb "-" c); [apply match_star_all | reflexivity].
Qed.

Lemma match_star_space (k : string -> option string) s :
  (forall c r, Str.isspace c = true -> k (String c r) = None) ->
  Re.match_star Str.isspace k s = k (Str.lstrip Str.isspace s).
Proof.
  intros Hk. induction s as [|c s IH]; [reflexivity|].
  cbn [Re.match_star Str.lstrip].
  destruct (Str.isspace c) eqn:Hc; [|reflexivity].
  rewrite IH. destruct (k (Str.lstrip Str.isspace s)); [reflexivity|].
  now apply Hk.
Qed.

Lemma isspace_hyphen c : Str.isspace c = true -> Ascii.eqb "-" c = false.
Proof.
  intros Hc. destruct (Ascii.eqb_spec "-" c) as [<-|]; [discriminate | reflexivity].
Qed.

Lemma match_hyphen s :
  Re.match_here Re.hyphen s =
  match Str.lstrip Str.isspace s with
  | String c r => if Ascii.eqb "-" c then Some (Str.lstrip Str.isspace r) else None
  | EmptyString => None
  end.
Proof.
  unfold Re.hyphen.
  change (Re.match_here (Re.Atom Str.isspace Re.Star :: ?re) s)
    with (Re.match_star Str.isspace (Re.match_here re) s).
  rewrite match_star_space.
  - apply match_hyphen_tail.
  - intros c r Hc. rewrite match_hyphen_tail. now rewrite isspace_hyphen.
Qed.

Lemma cut_blank_prefix s : forall a b,
  Spec.cut_at_hyphen s = Some (a, b) ->
  Str.rstrip Str.isspace a = EmptyString ->
  Str.lstrip Str.isspace s = String "-" b.
Proof.
  induction s as [|c s IH]; intros a b Hcut Ha; [discriminate|].
  cbn [Spec.cut_at_hyphen] in Hcut.
  destruct (Ascii.eqb_spec c "-") as [->|Hne].
  - now inversion Hcut.
  - destruct (Spec.cut_at_hyphen s) as [[a0 b0]|]; [|discriminate].
    inversion Hcut; subst a b. rewrite rstrip_cons in Ha.
    destruct (Str.rstrip Str.isspace a0) eqn:Ea0; [|discriminate].
    cbn in Ha. destruct (Str.isspace c) eqn:Hc; [|discriminate].
    cbn [Str.lstrip]. rewrite Hc. now apply (IH a0 b0).
Qed.

Lemma lstrip_hyphen_cut s : forall r,
  Str.lstrip Str.isspace s = String "-" r ->
  exists a, Spec.cut_at_hyphen s = Some (a, r)
            /\ Str.rstrip Str.isspace a = EmptyString.
Proof.
  induction s as [|c s IH]; intros r Hs; [discriminate|].
  cbn [Str.lstrip] in Hs. cbn [Spec.cut_at_hyphen].
  destruct (Str.isspace c) eqn:Hc.
  - destruct (IH r Hs) as (a & Ea & Ha).
    destruct (Ascii.eqb_spec c "-") as [->|Hne]; [discriminate|].
    rewrite Ea. exists (String c a). split; [reflexivity|].
    rewrite rstrip_cons, Ha, Hc. reflexivity.
  - inversion Hs; subst. exists EmptyString. now rewrite Ascii.eqb_refl.
Qed.

Lemma search_hyphen s :
  Re.search Re.hyphen s =
  match Spec.cut_at_hyphen s with
  | Some (a, b) => Some (Str.rstrip Str.isspace a, Str.lstrip Str.isspace b)
  | None => None
  end.
Proof.
  induction s as [|c s IH]; [reflexivity|].
  cbn [Re.search]. rewrite match_hyphen, IH. cbn [Str.lstrip Spec.cut_at_hyphen].
  destruct (Ascii.eqb_spec c "-") as [->|Hne].
  - reflexivity.
  - assert (Hc' : Ascii.eqb "-" c = false)
      by (destruct (Ascii.eqb_spec "-" c); congruence).
    destruct (Str.isspace c) eqn:Hc.
    + destruct (Str.lstrip Str.isspace s) as [|h r] eqn:Es.
      * destruct (Spec.cut_at_hyphen s) as [[a b]|] eqn:Ecut; [|reflexivity].
        rewrite rstrip_cons.
        destruct (Str.rstrip Str.isspace a) eqn:Ea; [|reflexivity].
        pose proof (cut_blank_prefix s a b Ecut Ea). congruence.
      * destruct (Ascii.eqb_spec "-" h) as [<-|Hh].
        -- destruct (lstrip_hyphen_cut s r Es) as (a & -> & Ha).
           rewrite rstrip_cons, Ha, Hc. reflexivity.
        -- destruct (Spec.cut_at_hyphen s) as [[a b]|] eqn:Ecut; [|reflexivity].
           rewrite rstrip_cons.
           destruct (Str.rstrip Str.isspace a) eqn:Ea; [|reflexivity].
           pose proof (cut_blank_prefix s a b Ecut Ea). congruence.
    + rewrite Hc'.
      destruct (Spec.cut_at_hyphen s) as [[a b]|]; [|reflexivity].
      rewrite rstrip_cons, Hc, andb_false_r. reflexivity.
Qed.

Lemma split1_hyphen s : Re.split1 Re.hyphen s = Spec.split_time s.
Proof.
  unfold Re.split1, Spec.split_time. rewrite search_hyphen.
  now destruct (Spec.cut_at_hyphen s) as [[a b]|].
Qed.

Lemma cut_at_hyphen_contains s :
  is_Some (Spec.cut_at_hyphen s) <-> Str.contains "-" s = true.
Proof.
  unfold Str.contains.
  induction s as [|c s IH]; cbn [Spec.cut_at_hyphen list_ascii_of_string existsb].
  - split; [intros [x Hx]; discriminate | discriminate].
  - rewrite (Ascii.eqb_sym "-" c).
    destruct (Ascii.eqb c "-"); cbn [orb]; [split; eauto|].
    rewrite <- IH. destruct (Spec.cut_at_hyphen s) as [[a b]|]; split; eauto;
      intros [x Hx]; discriminate.
Qed.

Lemma split_time_two s :
  length (Spec.split_time s) = 2%nat <-> Str.contains "-" s = true.
Proof.
  rewrite <- cut_at_hyphen_contains. unfold Spec.split_time.
  destruct (Spec.cut_at_hyphen s) as [[a b]|]; cbn; split; eauto.
  - discriminate.
  - intros [x Hx]; discriminate.
Qed.

Section TimeRange.
Context `{Platform} `{!Parser}.

Lemma parse_time_range_two (value : cell) p0 p1 :
  Spec.split_time (py_str value) = [p0; p1] ->
  parse_time_range value =
  (start ← date_parser_parse p0;
   stop ← date_parser_parse p1;
   mret (time_of start, time_of stop)).
Proof.
  intros E. unfold parse_time_range. rewrite split1_hyphen, E. reflexivity.
Qed.

Lemma parse_time_range_other (value : cell) :
  length (Spec.split_time (py_str value)) <> 2%nat ->
  raises (parse_time_range value).
Proof.
  intros E. unfold parse_time_range. rewrite split1_hyphen.
  apply Nat.eqb_neq in E. rewrite E. cbn. eexists; reflexivity.
Qed.

End TimeRange.

(** C5. The time cell's text is split at its first hyphen, the
    whitespace around the hyphen dropped; [parse_time_range] raises
    exactly when that does not give two parts (no hyphen in the text)
    or the parser raises on one of the parts, and otherwise returns
    the times of day of the two parts, each parsed on its own. *)
Theorem parse_time_range_correct `{Platform} `{!Parser} (value : cell) :
  let parts := Spec.split_time (py_str value) in
  Re.split1 Re.hyphen (py_str value) = parts
  /\ (length parts = 2%nat <-> Str.contains "-" (py_str value) = true)
  /\ (raises (parse_time_range value) <->
      length parts <> 2%nat
      \/ exists part, part ∈ parts /\ raises (date_parser_parse part))
  /\ (forall p0 p1 d0 d1,
        parts = [p0; p1] ->
        date_parser_parse p0 = Ok d0 ->
        date_parser_parse p1 = Ok d1 ->
        parse_time_range value = Ok (time_of d0, time_of d1)).
Proof.
  intros parts. split; [apply split1_hyphen|].
  split; [apply split_time_two|]. split.
  - split.
    + intros [e He].
      destruct (decide (length parts = 2%nat)) as [E|E]; [right | now left].
      destruct parts as [|p0 [|p1 [|]]] eqn:Ep; try discriminate.
      rewrite (parse_time_range_two value p0 p1 Ep) in He.
      destruct (date_parser_parse p0) as [d0|e0] eqn:E0.
      * destruct (date_parser_parse p1) as [d1|e1] eqn:E1; [discriminate|].
        exists p1. split; [set_solver | rewrite E1; eexists; reflexivity].
      * exists p0. split; [set_solver | rewrite E0; eexists; reflexivity].
    + intros [E|(part & Hin & [e He])]; [now apply parse_time_range_other|].
      destruct (decide (length parts = 2%nat)) as [E|E];
        [|now apply parse_time_range_other].
      destruct parts as [|p0 [|p1 [|]]] eqn:Ep; try discriminate.
      rewrite (parse_time_range_two value p0 p1 Ep).
      apply elem_of_cons in Hin as [->|Hin].
      * rewrite He. eexists; reflexivity.
      * apply elem_of_cons in Hin as [->|Hin]; [|now apply elem_of_nil in Hin].
        rewrite He. destruct (date_parser_parse p0); eexists; reflexivity.
  - intros p0 p1 d0 d1 Ep E0 E1.
    rewrite (parse_time_range_two value p0 p1 Ep), E0, E1. reflexivity.
Qed.

Lemma parse_time_range_examples :
  parse_time_range (CStr "9:00 AM - 10:00 AM") = Ok (MkTime 9 0 0 0, MkTime 10 0 0 0)
  /\ Re.split1 Re.hyphen "9:00AM10:00AM" = ["9:00AM10:00AM"]
  /\ raises (parse_time_range (CStr "9:00AM10:00AM"))
  /\ Re.split1 Re.hyphen "8:15  -10:00 - 11:00" = ["8:15"; "10:00 - 11:00"].
Proof. repeat split. eexists. reflexivity. Qed.

(** ** Required columns *)

Lemma required_columns_sorted :
  REQUIRED_COLUMNS = list_to_set Spec.required_sorted.
Proof.
  apply set_eq. intros x. unfold REQUIRED_COLUMNS, Spec.required_sorted.
  rewrite elem_of_list_to_set, !elem_of_union, !elem_of_singleton,
    !elem_of_cons, elem_of_nil.
  tauto.
Qed.

Lemma missing_set (present : list string) :
  REQUIRED_COLUMNS ∖ list_to_set present =@{gset string}
  list_to_set (List.filter (fun c => bool_decide (c ∉ present)) Spec.required_sorted).
Proof.
  rewrite required_columns_sorted. apply set_eq. intros x.
  rewrite elem_of_difference, !elem_of_list_to_set.
  rewrite (list_elem_of_In (List.filter _ _) x), filter_In, bool_decide_eq_true,
    <- list_elem_of_In.
  tauto.
Qed.

Lemma sorted_elements_required (present : list string) :
  let l := List.filter (fun c => bool_decide (c ∉ present)) Spec.required_sorted in
  sorted (elements (list_to_set l : gset string)) = l.
Proof.
  unfold Spec.required_sorted. cbn [List.filter].
  repeat case_bool_decide; vm_compute; reflexivity.
Qed.

Lemma sorted_required_filter (f : string -> bool) :
  Sorted String.le (List.filter f Spec.required_sorted).
Proof.
  unfold Spec.required_sorted. cbn [List.filter].
  destruct (f "date"), (f "time"), (f "title"), (f "venue");
    repeat constructor; vm_compute; exact I.
Qed.

Lemma list_to_set_empty_nil (l : list string) :
  (list_to_set l : gset string) = ∅ <-> l = [].
Proof.
  split; [|intros ->; reflexivity].
  destruct l as [|x l]; [reflexivity|]. cbn. set_solver.
Qed.

Section Columns.
Context `{Platform}.

Lemma normalize_columns_cases (df : DataFrame) :
  normalize_columns df =
  match Spec.missing_columns (columns df) with
  | [] => Ok (rename_columns (fun h => Str.lower (Str.strip h)) df)
  | missing =>
      Raise (ValueError ("Missing required columns: " +:+ Str.join ", " missing))
  end.
Proof.
  unfold normalize_columns, Spec.missing_columns.
  cbn [columns rename_columns].
  rewrite missing_set.
  set (present := map _ (columns df)).
  rewrite sorted_elements_required.
  destruct (List.filter _ Spec.required_sorted) as [|c l] eqn:E.
  - reflexivity.
  - case_decide as Hd; [|reflexivity].
    apply list_to_set_empty_nil in Hd. discriminate.
Qed.

Lemma missing_columns_nil (headers : list string) :
  Spec.missing_columns headers = [] <->
  forall c, c ∈ Spec.required_sorted ->
            c ∈ map (fun h => Str.lower (Str.strip h)) headers.
Proof.
  unfold Spec.missing_columns.
  set (present := map _ headers). split.
  - intros E c Hc. destruct (decide (c ∈ present)) as [|Hn]; [assumption|].
    assert (Hin : In c (List.filter (fun c => bool_decide (c ∉ present))
                          Spec.required_sorted)).
    { apply filter_In. split; [now apply list_elem_of_In|].
      now apply bool_decide_eq_true. }
    rewrite E in Hin. destruct Hin.
  - intros Hall.
    destruct (List.filter _ Spec.required_sorted) as [|c l] eqn:E; [reflexivity|].
    assert (Hin : In c (List.filter (fun c => bool_decide (c ∉ present))
                          Spec.required_sorted)) by (rewrite E; now left).
    apply filter_In in Hin as [Hc Hn].
    apply bool_decide_eq_true in Hn. apply list_elem_of_In in Hc.
    now specialize (Hall c Hc).
Qed.

End Columns.

(** C4. With the headers trimmed and lowercased: when one of [title],
    [date], [time], [venue] is absent, [normalize_columns] raises one
    error whose message lists every missing column, in alphabetical
    order and joined with a comma, and [main] stops on it with nothing
    done (no directory made, no row built, nothing written); when the
    four are present it raises nothing and returns the renamed frame. *)
Theorem normalize_columns_required_columns
    `{Platform} `{!Parser} `{!Serializer} (df : DataFrame) :
  let present := map (fun h => Str.lower (Str.strip h)) (columns df) in
  let missing := Spec.missing_columns (columns df) in
  Sorted String.le missing
  /\ (forall c, c ∈ missing <-> c ∈ Spec.required_sorted /\ c ∉ present)
  /\ (missing = [] <-> forall c, c ∈ Spec.required_sorted -> c ∈ present)
  /\ (missing = [] ->
      normalize_columns df
      = Ok (rename_columns (fun h => Str.lower (Str.strip h)) df))
  /\ (missing <> [] ->
      let error :=
        ValueError ("Missing required columns: " +:+ Str.join ", " missing) in
      normalize_columns df = Raise error
      /\ forall a : Args,
          fst (main a df) = []
          /\ (forall tz, pytz_timezone (timezone a) = Ok tz ->
                         main a df = ([], Raise error))).
Proof.
  intros present missing. split; [apply sorted_required_filter|].
  split.
  { intros c. unfold missing, Spec.missing_columns. fold present.
    rewrite list_elem_of_In, filter_In, bool_decide_eq_true, <- list_elem_of_In.
    tauto. }
  split; [apply missing_columns_nil|].
  pose proof (normalize_columns_cases df) as Hcases. fold missing in Hcases.
  split.
  - intros E. now rewrite E in Hcases.
  - intros Hne error.
    assert (Hraise : normalize_columns df = Raise error)
      by (destruct missing; [congruence | exact Hcases]).
    split; [exact Hraise|].
    intros a. unfold main. rewrite Hraise.
    split.
    + now destruct (pytz_timezone (timezone a)).
    + now intros tz ->.
Qed.

Lemma normalize_columns_examples :
  normalize_columns (MkDataFrame _ [" Venue"; "Notes"; "TITLE "] [])
  = Raise (ValueError "Missing required columns: date, time")
  /\ normalize_columns frame1
     = Ok (MkDataFrame _ ["title"; "date"; "time"; "venue"] (rows frame1)).
Proof. split; vm_compute; reflexivity. Qed.

(** ** The calendar *)

Lemma is_leap_spec y :
  Greg.is_leap y = true <->
  y mod 4 = 0 /\ (y mod 100 <> 0 \/ y mod 400 = 0).
Proof.
  unfold Greg.is_leap.
  rewrite andb_true_iff, orb_true_iff, negb_true_iff, !Z.eqb_eq, Z.eqb_neq.
  tauto.
Qed.

Lemma days_before_year_succ y :
  Greg.days_before_year (y + 1) =
  Greg.days_before_year y + 365 + (if Greg.is_leap y then 1 else 0).
Proof.
  pose proof (is_leap_spec y) as Hl.
  unfold Greg.days_before_year. replace (y + 1 - 1) with y by lia.
  destruct (Greg.is_leap y).
  - destruct Hl as [Hl _]. specialize (Hl eq_refl).
    Z.div_mod_to_equations. lia.
  - assert (Hn : ~ (y mod 4 = 0 /\ (y mod 100 <> 0 \/ y mod 400 = 0)))
      by (intros X; apply Hl in X; discriminate).
    clear Hl. Z.div_mod_to_equations. lia.
Qed.

Lemma days_before_month_succ y m :
  1 <= m <= 11 ->
  Greg.days_before_month y (m + 1) =
  Greg.days_before_month y m + Greg.days_in_month y m.
Proof.
  intros Hm.
  assert (Hcases : m = 1 \/ m = 2 \/ m = 3 \/ m = 4 \/ m = 5 \/ m = 6 \/ m = 7
                   \/ m = 8 \/ m = 9 \/ m = 10 \/ m = 11) by lia.
  unfold Greg.days_before_month, Greg.days_in_month.
  repeat (destruct Hcases as [->|Hcases]); try subst m;
    destruct (Greg.is_leap y); reflexivity.
Qed.

Lemma valid_date_spec y m d :
  Greg.valid_date y m d = true <->
  1 <= y <= 9999 /\ 1 <= m <= 12 /\ 1 <= d <= Greg.days_in_month y m.
Proof.
  unfold Greg.valid_date, Greg.MINYEAR, Greg.MAXYEAR.
  rewrite !andb_true_iff, !Z.leb_le. tauto.
Qed.

Lemma valid_time_spec h mi s us :
  Greg.valid_time h mi s us = true <->
  0 <= h <= 23 /\ 0 <= mi <= 59 /\ 0 <= s <= 59 /\ 0 <= us <= 999999.
Proof.
  unfold Greg.valid_time. rewrite !andb_true_iff, !Z.leb_le. tauto.
Qed.

Lemma days_in_month_bounds y m : 28 <= Greg.days_in_month y m <= 31.
Proof.
  unfold Greg.days_in_month.
  destruct (m =? 2); [destruct (Greg.is_leap y); lia|].
  destruct ((m =? 4) || (m =? 6) || (m =? 9) || (m =? 11)); lia.
Qed.

(** The day after a valid date is a valid date, one ordinal later and
    later in (year, month, day) order. *)
Lemma next_day_spec y m d y' m' d' :
  Greg.valid_date y m d = true ->
  Greg.next_day (y, m, d) = Some (y', m', d') ->
  Greg.valid_date y' m' d' = true
  /\ Greg.ymd2ord y' m' d' = Greg.ymd2ord y m d + 1
  /\ (y < y' \/ y = y' /\ (m < m' \/ m = m' /\ d < d')).
Proof.
  intros Hv Hn. apply valid_date_spec in Hv as (Hy & Hm & Hd).
  unfold Greg.next_day in Hn.
  destruct (Z.ltb_spec d (Greg.days_in_month y m)).
  { injection Hn as <- <- <-. split; [apply valid_date_spec; lia|].
    unfold Greg.ymd2ord. lia. }
  destruct (Z.ltb_spec m 12).
  { injection Hn as <- <- <-.
    pose proof (days_in_month_bounds y (m + 1)).
    split; [apply valid_date_spec; lia|].
    unfold Greg.ymd2ord. rewrite days_before_month_succ by lia. lia. }
  unfold Greg.MAXYEAR in Hn. destruct (Z.ltb_spec y 9999); [|discriminate].
  injection Hn as <- <- <-.
  assert (m = 12) by lia. subst m.
  assert (d = 31) by (unfold Greg.days_in_month in *; cbn in *; lia). subst d.
  split; [apply valid_date_spec; unfold Greg.days_in_month; cbn; lia|].
  unfold Greg.ymd2ord. rewrite days_before_year_succ.
  unfold Greg.days_before_month.
  change (Z.to_nat 12) with 12%nat. change (Z.to_nat 1) with 1%nat.
  cbn [nth].
  change (2 <? 12) with true. change (2 <? 1) with false. cbn [andb].
  destruct (Greg.is_leap y); lia.
Qed.

Lemma shift_days_one ymd : Greg.shift_days 1 ymd = Greg.next_day ymd.
Proof.
  unfold Greg.shift_days. change (0 <=? 1) with true. cbv iota.
  change (Z.to_nat 1) with 1%nat. cbn [Greg.iter_day].
  now destruct (Greg.next_day ymd).
Qed.

(** ** Datetimes *)

Lemma hour_delta : timedelta_new 0 0 0 0 1 = Ok (MkTimedelta 0 3600 0).
Proof. reflexivity. Qed.

Section DatetimeFacts.
Context {T : Type}.
Implicit Types d : datetime T.

Lemma lex_compare_refl (l : list Z) : lex_compare l l = Eq.
Proof. induction l as [|x l IH]; cbn; [reflexivity|]. now rewrite Z.compare_refl. Qed.

Lemma lex_compare_antisym (a : list Z) : forall b,
  lex_compare b a = CompOpp (lex_compare a b).
Proof.
  induction a as [|x a IH]; intros [|y b]; cbn; try reflexivity.
  rewrite (Z.compare_antisym x y).
  destruct (x ?= y); cbn; [apply IH | reflexivity | reflexivity].
Qed.

Lemma lex_compare_lt_at (pre : list Z) x y a b :
  x < y -> lex_compare (pre ++ x :: a) (pre ++ y :: b) = Lt.
Proof.
  intros Hxy. induction pre as [|p pre IH]; cbn.
  - now apply Z.compare_lt_iff in Hxy as ->.
  - now rewrite Z.compare_refl.
Qed.

Lemma base_compare_antisym (a b : datetime T) :
  base_compare b a = CompOpp (base_compare a b).
Proof. apply lex_compare_antisym. Qed.

Lemma valid_datetime_spec d :
  valid_datetime d = true <->
  Greg.valid_date (year d) (month d) (day d) = true
  /\ Greg.valid_time (hour d) (minute d) (second d) (microsecond d) = true.
Proof. unfold valid_datetime. apply andb_true_iff. Qed.

Lemma datetime_new_ok y m dd h mi s us (tz : option T) d :
  datetime_new y m dd h mi s us tz = Ok d ->
  d = MkDatetime y m dd h mi s us tz /\ valid_datetime d = true.
Proof.
  unfold datetime_new. intros E.
  destruct (Greg.valid_date y m dd && Greg.valid_time h mi s us) eqn:V;
    [|discriminate].
  inversion E; subst. split; [reflexivity | exact V].
Qed.

Lemma datetime_new_valid y m dd h mi s us (tz : option T) :
  Greg.valid_date y m dd = true ->
  Greg.valid_time h mi s us = true ->
  datetime_new y m dd h mi s us tz = Ok (MkDatetime y m dd h mi s us tz).
Proof. unfold datetime_new. now intros -> ->. Qed.

Lemma replace_time_ok d h mi s us d' :
  replace_time d h mi s us = Ok d' ->
  d' = MkDatetime (year d) (month d) (day d) h mi s us (tzinfo d)
  /\ valid_datetime d' = true.
Proof. apply datetime_new_ok. Qed.

(** One hour later on the wall clock. *)
Lemma datetime_add_hour d d' :
  valid_datetime d = true ->
  datetime_add d (MkTimedelta 0 3600 0) = Ok d' ->
  base_compare d d' = Lt
  /\ tzinfo d' = tzinfo d
  /\ valid_datetime d' = true
  /\ wall_microseconds d' = wall_microseconds d + 3600 * 1000000.
Proof.
  intros Hv Hadd. apply valid_datetime_spec in Hv as [Hdate Htime].
  apply valid_time_spec in Htime as (Hh & Hmi & Hs & Hus).
  unfold datetime_add in Hadd. cbn [td_days td_seconds td_microseconds] in Hadd.
  rewrite Z.add_0_r, Z.add_0_l in Hadd.
  rewrite (Z.div_small (microsecond d)), (Z.mod_small (microsecond d)) in Hadd by lia.
  rewrite Z.add_0_r in Hadd.
  set (s := hour d * 3600 + minute d * 60 + second d + 3600) in Hadd.
  destruct (Z.lt_ge_cases (hour d) 23) as [Hlt|Hge].
  - (* the same day *)
    assert (Hq : s / 86400 = 0) by (apply Z.div_small; unfold s; lia).
    assert (Hr : s mod 86400 = s) by (apply Z.mod_small; unfold s; lia).
    rewrite Hq, Hr in Hadd. cbn in Hadd.
    assert (H1 : s / 3600 = hour d + 1)
      by (symmetry; apply (Z.div_unique s 3600 _ (minute d * 60 + second d));
          unfold s; lia).
    assert (H2 : s mod 3600 = minute d * 60 + second d)
      by (symmetry; apply (Z.mod_unique s 3600 (hour d + 1)); unfold s; lia).
    assert (H3 : (minute d * 60 + second d) / 60 = minute d)
      by (symmetry; apply (Z.div_unique _ 60 _ (second d)); lia).
    assert (H4 : s mod 60 = second d)
      by (symmetry; apply (Z.mod_unique s 60 (hour d * 60 + minute d + 60));
          unfold s; lia).
    rewrite H1, H2, H3, H4 in Hadd. inversion Hadd; subst d'; clear Hadd.
    split.
    { unfold base_compare, fields. cbn [year month day hour minute second microsecond].
      apply (lex_compare_lt_at [year d; month d; day d]). lia. }
    split; [reflexivity|]. split.
    { apply valid_datetime_spec. cbn. split; [assumption|].
      apply valid_time_spec. lia. }
    unfold wall_microseconds. cbn. lia.
  - (* the next day *)
    assert (Hh23 : hour d = 23) by lia.
    assert (Hq : s / 86400 = 1)
      by (symmetry; apply (Z.div_unique s 86400 _ (minute d * 60 + second d));
          unfold s; lia).
    assert (Hr : s mod 86400 = minute d * 60 + second d)
      by (symmetry; apply (Z.mod_unique s 86400 1); unfold s; lia).
    rewrite Hq, Hr in Hadd.
    rewrite ?Z.add_0_l, shift_days_one in Hadd.
    destruct (Greg.next_day (year d, month d, day d)) as [[[y' m'] dd']|] eqn:Hn;
      cbv beta iota in Hadd; [|discriminate].
    destruct (next_day_spec _ _ _ _ _ _ Hdate Hn) as (Hv' & Hord & Horder).
    assert (H1 : (minute d * 60 + second d) / 3600 = 0)
      by (apply Z.div_small; lia).
    assert (H2 : (minute d * 60 + second d) mod 3600 = minute d * 60 + second d)
      by (apply Z.mod_small; lia).
    assert (H3 : (minute d * 60 + second d) / 60 = minute d)
      by (symmetry; apply (Z.div_unique _ 60 _ (second d)); lia).
    assert (H4 : (minute d * 60 + second d) mod 60 = second d)
      by (symmetry; apply (Z.mod_unique _ 60 (minute d)); lia).
    rewrite H1, H2, H3, H4 in Hadd. inversion Hadd; subst d'; clear Hadd.
    split.
    { unfold base_compare, fields. cbn [year month day hour minute second microsecond].
      destruct Horder as [Hy|[<- [Hm| [<- Hd]]]].
      - now apply (lex_compare_lt_at []).
      - now apply (lex_compare_lt_at [year d]).
      - now apply (lex_compare_lt_at [year d; month d]). }
    split; [reflexivity|]. split.
    { apply valid_datetime_spec. cbn. split; [assumption|].
      apply valid_time_spec. lia. }
    unfold wall_microseconds. cbn. rewrite Hord, Hh23. lia.
Qed.

(** Adding an hour fails only in the last hour of 9999-12-31. *)
Lemma datetime_add_hour_total d :
  valid_datetime d = true ->
  (hour d < 23 \/ (year d, month d, day d) <> (9999, 12, 31)) ->
  exists d', datetime_add d (MkTimedelta 0 3600 0) = Ok d'.
Proof.
  intros Hv Hroom.
  apply valid_datetime_spec in Hv as [Hdate Htime].
  apply valid_time_spec in Htime as (Hh & Hmi & Hs & Hus).
  apply valid_date_spec in Hdate as (Hy & Hm & Hd).
  unfold datetime_add. cbn [td_days td_seconds td_microseconds].
  rewrite Z.add_0_r, Z.add_0_l.
  rewrite (Z.div_small (microsecond d)) by lia. rewrite Z.add_0_r.
  set (s := hour d * 3600 + minute d * 60 + second d + 3600).
  destruct (Z.lt_ge_cases (hour d) 23) as [Hlt|Hge].
  - assert (Hq : s / 86400 = 0) by (apply Z.div_small; unfold s; lia).
    rewrite Hq. cbn. eauto.
  - assert (Hq : s / 86400 = 1)
      by (symmetry; apply (Z.div_unique s 86400 _ (minute d * 60 + second d));
          unfold s; lia).
    rewrite Hq.
    rewrite ?Z.add_0_l, shift_days_one.
    destruct Hroom as [?|Hroom]; [lia|].
    unfold Greg.next_day, Greg.MAXYEAR.
    destruct (Z.ltb_spec (day d) (Greg.days_in_month (year d) (month d))); [eauto|].
    destruct (Z.ltb_spec (month d) 12); [eauto|].
    destruct (Z.ltb_spec (year d) 9999); [eauto|].
    exfalso. apply Hroom.
    assert (month d = 12) by lia. assert (year d = 9999) by lia.
    assert (day d = 31)
      by (rewrite H2, H3 in *; cbn in Hd; cbn in H; lia).
    congruence.
Qed.

End DatetimeFacts.

(** ** [build_event], step by step *)

Lemma timedelta_new_total_microseconds days seconds microseconds minutes hours td :
  timedelta_new days seconds microseconds minutes hours = Ok td ->
  td_total_microseconds td =
  microseconds + 1000000 * (seconds + 60 * minutes + 3600 * hours + 86400 * days).
Proof.
  unfold timedelta_new. set (us := microseconds + _).
  destruct (999999999 <? Z.abs (us / 86400000000)); [discriminate|].
  intros E. injection E as <-. unfold td_total_microseconds. cbn.
  pose proof (Z.div_mod us 86400000000 ltac:(lia)).
  pose proof (Z.div_mod (us mod 86400000000) 1000000 ltac:(lia)).
  lia.
Qed.

Lemma timedelta_new_minutes_total (m : Z) :
  Z.abs m <= 1439999998560 ->
  exists td, timedelta_new 0 0 0 m 0 = Ok td.
Proof.
  intros Hm. unfold timedelta_new.
  set (us := 0 + 1000000 * (0 + 60 * m + 3600 * 0 + 86400 * 0)).
  assert (Hd : Z.abs (us / 86400000000) <= 999999999).
  { assert (- 999999999 <= us / 86400000000 <= 999999999); [|lia].
    split.
    - apply Z.div_le_lower_bound; unfold us; lia.
    - apply Z.div_le_upper_bound; unfold us; lia. }
  destruct (Z.ltb_spec 999999999 (Z.abs (us / 86400000000))); [lia|]. eauto.
Qed.

(** Reduce the binds of [result] whose head is known. *)
Ltac mred := cbn [mbind result_bind mret result_ret].

Section BuildEvent.
Context `{Platform} `{!Parser}.

Lemma build_event_steps (row : dict) (tz : TzInfo) (alert : Z) :
  build_event row tz alert =
  (date_cell ← dict_item row "date";
   start ← parse_datetime date_cell tz;
   time_cell ← dict_item row "time";
   times ← parse_time_range time_cell;
   dtstart ← replace_time start (t_hour times.1) (t_minute times.1)
               (t_second times.1) 0;
   dtend ← replace_time start (t_hour times.2) (t_minute times.2)
             (t_second times.2) 0;
   dtend ← event_end dtstart dtend;
   trigger ← timedelta_new 0 0 0 (- Z.abs alert) 0;
   mret (calendar_of
           (event_of (event_title row) (event_venue row) (row_description row)
              dtstart dtend trigger))).
Proof.
  unfold build_event, event_end.
  destruct (dict_item row "date") as [date_cell|]; mred; [|reflexivity].
  destruct (parse_datetime date_cell tz) as [start|]; mred; [|reflexivity].
  destruct (dict_item row "time") as [time_cell|]; mred; [|reflexivity].
  destruct (parse_time_range time_cell) as [[st et]|]; mred; [|reflexivity].
  cbn [fst snd].
  destruct (replace_time start (t_hour st) _ _ _) as [dtstart|]; mred; [|reflexivity].
  destruct (replace_time start (t_hour et) _ _ _) as [cand|]; mred; [|reflexivity].
  destruct (datetime_le cand dtstart) as [le|]; mred; [|reflexivity].
  match goal with
  | |- context [mbind _ ?m] =>
      match m with
      | (if le then _ else _) => destruct m as [dtend|]; mred; [|reflexivity]
      end
  end.
  destruct (timedelta_new 0 0 0 (- Z.abs alert) 0) as [trigger|]; mred; [|reflexivity].
  unfold event_of, event_venue, event_title, calendar_of, alarm_of.
  destruct (Str.strip (py_str (dict_get row "venue" (CStr "")))); reflexivity.
Qed.

(** What a successful [build_event] went through. *)
Lemma build_event_inv (row : dict) (tz : TzInfo) (alert : Z) (cal : component) :
  build_event row tz alert = Ok cal ->
  exists date_cell start time_cell st et dtstart cand dtend trigger,
    dict_lookup row "date" = Some date_cell
    /\ parse_datetime date_cell tz = Ok start
    /\ dict_lookup row "time" = Some time_cell
    /\ parse_time_range time_cell = Ok (st, et)
    /\ replace_time start (t_hour st) (t_minute st) (t_second st) 0 = Ok dtstart
    /\ replace_time start (t_hour et) (t_minute et) (t_second et) 0 = Ok cand
    /\ event_end dtstart cand = Ok dtend
    /\ timedelta_new 0 0 0 (- Z.abs alert) 0 = Ok trigger
    /\ cal = calendar_of
               (event_of (event_title row) (event_venue row) (row_description row)
                  dtstart dtend trigger).
Proof.
  rewrite build_event_steps. unfold dict_item.
  destruct (dict_lookup row "date") as [date_cell|]; mred; [|discriminate].
  destruct (parse_datetime date_cell tz) as [start|] eqn:E1; mred; [|discriminate].
  destruct (dict_lookup row "time") as [time_cell|]; mred; [|discriminate].
  destruct (parse_time_range time_cell) as [[st et]|] eqn:E2; mred; [|discriminate].
  cbn [fst snd].
  destruct (replace_time start (t_hour st) _ _ _) as [dtstart|] eqn:E3; mred;
    [|discriminate].
  destruct (replace_time start (t_hour et) _ _ _) as [cand|] eqn:E4; mred;
    [|discriminate].
  destruct (event_end dtstart cand) as [dtend|] eqn:E5; mred; [|discriminate].
  destruct (timedelta_new 0 0 0 (- Z.abs alert) 0) as [trigger|] eqn:E6; mred;
    [|discriminate].
  intros E. injection E as <-.
  exists date_cell, start, time_cell, st, et, dtstart, cand, dtend, trigger.
  repeat split; assumption.
Qed.

Lemma datetime_cmp_same_tzinfo (a b : datetime TzInfo) :
  tzinfo a = tzinfo b -> datetime_cmp a b = Ok (base_compare a b).
Proof. intros E. unfold datetime_cmp. now rewrite decide_True. Qed.

(** The end of the event is after its start: it is the candidate
    when that is after the start, and the start plus an hour
    otherwise. *)
Lemma event_end_spec (dtstart cand dtend : datetime TzInfo) :
  valid_datetime dtstart = true ->
  tzinfo cand = tzinfo dtstart ->
  event_end dtstart cand = Ok dtend ->
  datetime_cmp dtend dtstart = Ok Gt
  /\ datetime_cmp cand dtstart = Ok (base_compare cand dtstart)
  /\ (base_compare cand dtstart = Gt -> dtend = cand)
  /\ (base_compare cand dtstart <> Gt ->
      datetime_add dtstart (MkTimedelta 0 3600 0) = Ok dtend
      /\ wall_microseconds dtend = wall_microseconds dtstart + 3600 * 1000000).
Proof.
  intros Hv Htz. unfold event_end, datetime_le.
  rewrite (datetime_cmp_same_tzinfo cand dtstart Htz). mred.
  destruct (base_compare cand dtstart) eqn:Hc.
  - rewrite hour_delta. mred. intros Hadd.
    destruct (datetime_add_hour dtstart dtend Hv Hadd) as (Hlt & Htz' & _ & Hw).
    split.
    { rewrite datetime_cmp_same_tzinfo by assumption.
      now rewrite base_compare_antisym, Hlt. }
    repeat split; try assumption; discriminate.
  - rewrite hour_delta. mred. intros Hadd.
    destruct (datetime_add_hour dtstart dtend Hv Hadd) as (Hlt & Htz' & _ & Hw).
    split.
    { rewrite datetime_cmp_same_tzinfo by assumption.
      now rewrite base_compare_antisym, Hlt. }
    repeat split; try assumption; discriminate.
  - intros E. injection E as <-.
    split; [rewrite datetime_cmp_same_tzinfo by assumption; now rewrite Hc|].
    repeat split; congruence.
Qed.

Lemma event_end_total (dtstart cand : datetime TzInfo) :
  valid_datetime dtstart = true ->
  tzinfo cand = tzinfo dtstart ->
  (base_compare cand dtstart = Gt
   \/ hour dtstart < 23
   \/ (year dtstart, month dtstart, day dtstart) <> (9999, 12, 31)) ->
  exists dtend, event_end dtstart cand = Ok dtend.
Proof.
  intros Hv Htz Hroom. unfold event_end, datetime_le.
  rewrite (datetime_cmp_same_tzinfo cand dtstart Htz). mred.
  destruct (base_compare cand dtstart) eqn:Hc; [| |eauto];
    rewrite hour_delta; mred;
    apply datetime_add_hour_total; try assumption;
    destruct Hroom as [?|?]; (discriminate || assumption).
Qed.

(** Reading the assembled calendar back. *)
Lemma calendar_events (event : component) :
  comp_name event = "VEVENT" ->
  subcomponents "VEVENT" (calendar_of event) = [event].
Proof. intros E. unfold subcomponents, calendar_of. cbn. now rewrite E. Qed.

Lemma event_of_props title venue description dtstart dtend trigger :
  let event := event_of title venue description dtstart dtend trigger in
  comp_name event = "VEVENT"
  /\ prop "summary" event = [VText title]
  /\ prop "dtstart" event = [VDatetime dtstart]
  /\ prop "dtend" event = [VDatetime dtend]
  /\ prop "description" event = [VText description]
  /\ comp_subs event = [alarm_of trigger].
Proof. destruct venue; repeat split; reflexivity. Qed.

End BuildEvent.

(** ** The event's start and end *)

(** C1. Whenever [build_event] produces a calendar (so the date and
    time cells parsed), its event's [dtend] compares greater than its
    [dtstart]; and when the end time of day put on the start's date is
    not after [dtstart], [dtend] is [dtstart] plus one hour, 3600
    seconds later on the wall clock. *)
Theorem build_event_end_after_start `{Platform} `{!Parser}
    (row : dict) (tz : TzInfo) (alert : Z) (cal : component) :
  build_event row tz alert = Ok cal ->
  exists event start st et dtstart cand dtend,
    subcomponents "VEVENT" cal = [event]
    /\ (date_cell ← dict_item row "date"; parse_datetime date_cell tz) = Ok start
    /\ (time_cell ← dict_item row "time"; parse_time_range time_cell) = Ok (st, et)
    /\ replace_time start (t_hour st) (t_minute st) (t_second st) 0 = Ok dtstart
    /\ replace_time start (t_hour et) (t_minute et) (t_second et) 0 = Ok cand
    /\ prop "dtstart" event = [VDatetime dtstart]
    /\ prop "dtend" event = [VDatetime dtend]
    /\ datetime_cmp dtend dtstart = Ok Gt
    /\ (datetime_cmp cand dtstart <> Ok Gt ->
        datetime_add dtstart (MkTimedelta 0 3600 0) = Ok dtend
        /\ wall_microseconds dtend = wall_microseconds dtstart + 3600 * 1000000).
Proof.
  intros Hb.
  destruct (build_event_inv row tz alert cal Hb)
    as (date_cell & start & time_cell & st & et & dtstart & cand & dtend & trigger
        & Hd & Hs & Ht & Hr & Hs1 & Hs2 & He & _ & ->).
  destruct (replace_time_ok _ _ _ _ _ _ Hs1) as [E1 V1].
  destruct (replace_time_ok _ _ _ _ _ _ Hs2) as [E2 V2].
  assert (Htz : tzinfo cand = tzinfo dtstart) by (now rewrite E1, E2).
  destruct (event_end_spec dtstart cand dtend V1 Htz He) as (Hgt & Hcmp & _ & Hhour).
  destruct (event_of_props (event_title row) (event_venue row) (row_description row)
              dtstart dtend trigger) as (Hn & _ & Hp1 & Hp2 & _).
  eexists _, start, st, et, dtstart, cand, dtend.
  split; [now apply calendar_events|].
  split; [unfold dict_item; now rewrite Hd|].
  split; [unfold dict_item; now rewrite Ht|].
  repeat (split; [assumption|]).
  intros Hnot. apply Hhour. intros Hc. apply Hnot. now rewrite Hcmp, Hc.
Qed.

(** A row whose cells parse gives a calendar when its start is not in
    the last hour of 9999-12-31 and the alert is within what a
    [timedelta] holds. *)
Lemma build_event_total `{Platform} `{!Parser}
    (row : dict) (tz : TzInfo) (alert : Z) date_cell time_cell start st et :
  dict_lookup row "date" = Some date_cell ->
  parse_datetime date_cell tz = Ok start ->
  dict_lookup row "time" = Some time_cell ->
  parse_time_range time_cell = Ok (st, et) ->
  valid_datetime start = true ->
  valid_time st = true ->
  valid_time et = true ->
  (t_hour st < 23 \/ (year start, month start, day start) <> (9999, 12, 31)) ->
  Z.abs alert <= 1439999998560 ->
  exists cal, build_event row tz alert = Ok cal.
Proof.
  intros Hd Hs Ht Hr Hv Hvs Hve Hroom Halert.
  rewrite build_event_steps. unfold dict_item. rewrite Hd. mred. rewrite Hs. mred.
  rewrite Ht. mred. rewrite Hr. mred. cbn [fst snd].
  apply valid_datetime_spec in Hv as [Hdate _].
  apply valid_time_spec in Hvs as (? & ? & ? & _).
  apply valid_time_spec in Hve as (? & ? & ? & _).
  unfold replace_time.
  rewrite !datetime_new_valid by (assumption || (apply valid_time_spec; lia)).
  mred.
  edestruct (event_end_total
               (MkDatetime (year start) (month start) (day start)
                  (t_hour st) (t_minute st) (t_second st) 0 (tzinfo start))
               (MkDatetime (year start) (month start) (day start)
                  (t_hour et) (t_minute et) (t_second et) 0 (tzinfo start)))
    as [dtend ->].
  - apply valid_datetime_spec. cbn. split; [assumption | apply valid_time_spec; lia].
  - reflexivity.
  - right. cbn. exact Hroom.
  - mred. destruct (timedelta_new_minutes_total (- Z.abs alert)) as [td ->]; [lia|].
    mred. eauto.
Qed.

Lemma build_event_end_after_start_witness :
  exists cal,
    build_event row_overnight tt 30 = Ok cal
    /\ exists event dtstart dtend,
        subcomponents "VEVENT" cal = [event]
        /\ prop "dtstart" event = [VDatetime dtstart]
        /\ prop "dtend" event = [VDatetime dtend]
        /\ datetime_cmp dtend dtstart = Ok Gt.
Proof.
  assert (Hb : exists cal, build_event row_overnight tt 30 = Ok cal)
    by (eexists; vm_compute; reflexivity).
  destruct Hb as [cal Hb]. exists cal. split; [exact Hb|].
  destruct (build_event_end_after_start row_overnight tt 30 cal Hb)
    as (event & start & st & et & dtstart & cand & dtend
        & He & _ & _ & _ & _ & H1 & H2 & Hgt & _).
  exists event, dtstart, dtend. auto.
Defined.

(** The overnight row of the specification: 10:00 PM to 1:00 AM ends
    at 11:00 PM, an hour after its start. *)
Lemma build_event_overnight :
  exists cal event,
    build_event row_overnight tt 30 = Ok cal
    /\ subcomponents "VEVENT" cal = [event]
    /\ prop "dtstart" event = [VDatetime (MkDatetime 2024 3 5 22 0 0 0 (Some tt))]
    /\ prop "dtend" event = [VDatetime (MkDatetime 2024 3 5 23 0 0 0 (Some tt))].
Proof. eexists _, _. repeat split; vm_compute; reflexivity. Qed.

(** In the last hour of 9999-12-31 the added hour does not exist and
    no calendar is produced. *)
Lemma build_event_last_hour :
  build_event row_last_day tt 30 = Raise OverflowError.
Proof. vm_compute. reflexivity. Qed.

(** C2, as stated, fails: the seconds of the times of day are kept,
    and the end is not always the end time of day on the parsed date.
    On the row whose time cell is ["9:00:30 - 10:00:45"] the start
    has 30 seconds; on the row ["10:00 PM - 1:00 AM"] the end is
    11:00 PM, not 1:00 AM. *)
Lemma build_event_keeps_seconds :
  ~ (forall cal event d,
        build_event row_seconds tt 30 = Ok cal ->
        subcomponents "VEVENT" cal = [event] ->
        prop "dtstart" event = [VDatetime d] ->
        second d = 0 /\ microsecond d = 0)
  /\ ~ (forall cal event d,
          build_event row_overnight tt 30 = Ok cal ->
          subcomponents "VEVENT" cal = [event] ->
          prop "dtend" event = [VDatetime d] ->
          hour d = 1 /\ minute d = 0).
Proof.
  split; intros Hclaim.
  - specialize (Hclaim _ _ (MkDatetime 2024 3 5 9 0 30 0 (Some tt))
                  (eq_refl : build_event row_seconds tt 30 = Ok _) eq_refl eq_refl).
    destruct Hclaim as [Hs _]. discriminate Hs.
  - specialize (Hclaim _ _ (MkDatetime 2024 3 5 23 0 0 0 (Some tt))
                  (eq_refl : build_event row_overnight tt 30 = Ok _) eq_refl eq_refl).
    destruct Hclaim as [Hh _]. discriminate Hh.
Qed.

(** C2, amended. In every calendar [build_event] produces, [dtstart]
    is the parsed date, localized or converted to the configured zone,
    with its hour, minute and second replaced by those of the start
    time of day and its microsecond set to zero; [dtend] is the same
    combination with the end time of day when that is after [dtstart],
    and [dtstart] plus one hour otherwise.  The date fields and the
    [tzinfo] are those of the parsed date; seconds are kept, only
    microseconds are zeroed. *)
Theorem build_event_composes_datetimes `{Platform} `{!Parser}
    (row : dict) (tz : TzInfo) (alert : Z) (cal : component) :
  build_event row tz alert = Ok cal ->
  exists event date_cell parsed st et dtstart dtend,
    subcomponents "VEVENT" cal = [event]
    /\ dict_lookup row "date" = Some date_cell
    /\ match date_cell with
       | CDatetime d => parsed = d
       | _ => date_parser_parse (py_str date_cell) = Ok parsed
       end
    /\ (time_cell ← dict_item row "time"; parse_time_range time_cell) = Ok (st, et)
    /\ prop "dtstart" event = [VDatetime dtstart]
    /\ prop "dtend" event = [VDatetime dtend]
    /\ let start := match tzinfo parsed with
                    | None => tz_localize tz parsed
                    | Some _ => astimezone parsed tz
                    end in
       let at_time := fun t : time =>
         MkDatetime (year start) (month start) (day start)
           (t_hour t) (t_minute t) (t_second t) 0 (tzinfo start) in
       dtstart = at_time st
       /\ (base_compare (at_time et) dtstart = Gt -> dtend = at_time et)
       /\ (base_compare (at_time et) dtstart <> Gt ->
           datetime_add dtstart (MkTimedelta 0 3600 0) = Ok dtend).
Proof.
  intros Hb.
  destruct (build_event_inv row tz alert cal Hb)
    as (date_cell & start & time_cell & st & et & dtstart & cand & dtend & trigger
        & Hd & Hs & Ht & Hr & Hs1 & Hs2 & He & _ & ->).
  destruct (replace_time_ok _ _ _ _ _ _ Hs1) as [E1 V1].
  destruct (replace_time_ok _ _ _ _ _ _ Hs2) as [E2 V2].
  assert (Htz : tzinfo cand = tzinfo dtstart) by (now rewrite E1, E2).
  destruct (event_end_spec dtstart cand dtend V1 Htz He) as (_ & _ & Hafter & Hhour).
  destruct (event_of_props (event_title row) (event_venue row) (row_description row)
              dtstart dtend trigger) as (Hn & _ & Hp1 & Hp2 & _).
  assert (Hparsed : exists parsed,
             match date_cell with
             | CDatetime d => parsed = d
             | _ => date_parser_parse (py_str date_cell) = Ok parsed
             end
             /\ start = match tzinfo parsed with
                        | None => tz_localize tz parsed
                        | Some _ => astimezone parsed tz
                        end).
  { unfold parse_datetime in Hs.
    destruct date_cell as [s|d|s]; cbn [py_str] in Hs |- *;
      [destruct (date_parser_parse s) as [p|] eqn:Ep; [|discriminate]
      | | destruct (date_parser_parse s) as [p|] eqn:Ep; [|discriminate]];
      cbn [mbind result_bind mret result_ret] in Hs; injection Hs as <-; eauto. }
  destruct Hparsed as (parsed & Hparsed & ->).
  eexists _, date_cell, parsed, st, et, dtstart, dtend.
  split; [now apply calendar_events|].
  split; [assumption|]. split; [assumption|].
  split; [unfold dict_item; now rewrite Ht|].
  split; [assumption|]. split; [assumption|].
  cbv beta zeta. rewrite <- E1, <- E2. split; [reflexivity|].
  split; [assumption|]. intros Hc. now apply Hhour.
Qed.

Lemma build_event_composes_datetimes_witness :
  exists cal,
    build_event row_seconds tt 30 = Ok cal
    /\ exists event,
        subcomponents "VEVENT" cal = [event]
        /\ prop "dtstart" event = [VDatetime (MkDatetime 2024 3 5 9 0 30 0 (Some tt))]
        /\ prop "dtend" event = [VDatetime (MkDatetime 2024 3 5 10 0 45 0 (Some tt))].
Proof.
  assert (Hb : exists cal, build_event row_seconds tt 30 = Ok cal)
    by (eexists; vm_compute; reflexivity).
  destruct Hb as [cal Hb]. exists cal. split; [exact Hb|].
  destruct (build_event_composes_datetimes row_seconds tt 30 cal Hb)
    as (event & date_cell & parsed & st & et & dtstart & dtend
        & He & Hd & Hp & Ht & H1 & H2 & Hs & Hafter & _).
  exists event. split; [exact He|].
  injection Hd as <-. cbn in Hp. injection Hp as <-.
  cbv in Ht. injection Ht as <- <-.
  cbv in Hs. rewrite Hs in H1. split; [exact H1|].
  rewrite (Hafter ltac:(rewrite Hs; reflexivity)) in H2. exact H2.
Defined.

(** ** The reminder *)

(** C7. For every integer [alert_minutes], negative ones included, a
    calendar [build_event] produces has one event with one reminder,
    whose trigger is minus the absolute value of [alert_minutes] in
    minutes: the offset used is never negative and the trigger never
    falls after the start. *)
Theorem build_event_alarm_trigger `{Platform} `{!Parser}
    (row : dict) (tz : TzInfo) (alert : Z) (cal : component) :
  build_event row tz alert = Ok cal ->
  exists event alarm trigger,
    subcomponents "VEVENT" cal = [event]
    /\ comp_subs event = [alarm]
    /\ comp_name alarm = "VALARM"
    /\ prop "action" alarm = [VText "DISPLAY"]
    /\ prop "trigger" alarm = [VDuration trigger]
    /\ td_total_microseconds trigger = - (Z.abs alert * 60 * 1000000)
    /\ 0 <= Z.abs alert
    /\ td_total_microseconds trigger <= 0.
Proof.
  intros Hb.
  destruct (build_event_inv row tz alert cal Hb)
    as (date_cell & start & time_cell & st & et & dtstart & cand & dtend & trigger
        & _ & _ & _ & _ & _ & _ & _ & Htd & ->).
  destruct (event_of_props (event_title row) (event_venue row) (row_description row)
              dtstart dtend trigger) as (Hn & _ & _ & _ & _ & Hsubs).
  apply timedelta_new_total_microseconds in Htd.
  eexists _, (alarm_of trigger), trigger.
  split; [now apply calendar_events|].
  split; [exact Hsubs|].
  repeat (split; [reflexivity|]).
  split; [lia|]. split; lia.
Qed.

Lemma build_event_alarm_trigger_witness :
  exists cal,
    build_event row1 tt (-30) = Ok cal
    /\ exists event alarm trigger,
        subcomponents "VEVENT" cal = [event]
        /\ comp_subs event = [alarm]
        /\ prop "trigger" alarm = [VDuration trigger]
        /\ td_total_microseconds trigger = - (30 * 60 * 1000000).
Proof.
  assert (Hb : exists cal, build_event row1 tt (-30) = Ok cal)
    by (eexists; vm_compute; reflexivity).
  destruct Hb as [cal Hb]. exists cal. split; [exact Hb|].
  destruct (build_event_alarm_trigger row1 tt (-30) cal Hb)
    as (event & alarm & trigger & He & Hs & _ & _ & Ht & Hus & _).
  exists event, alarm, trigger. auto.
Defined.

(** ** The description *)

Lemma description_lines_fold `{Platform} (row : dict) : forall acc,
  fold_left
    (fun lines kv => lines ++ ["- " +:+ fst kv +:+ ": " +:+ py_str (snd kv)])
    row acc
  = acc ++ map Spec.field_line row.
Proof.
  induction row as [|kv row IH]; intros acc; cbn [fold_left map].
  - now rewrite app_nil_r.
  - rewrite IH, <- app_assoc. reflexivity.
Qed.

Lemma lines_one s :
  Str.contains Spec.lf s = false -> Spec.lines s = [s].
Proof.
  unfold Str.contains. induction s as [|c s IH]; [reflexivity|].
  cbn [list_ascii_of_string existsb Spec.lines]. intros Hc.
  apply orb_false_iff in Hc as [Hc Hs].
  rewrite Ascii.eqb_sym, Hc, (IH Hs). reflexivity.
Qed.

Lemma lines_cons a b :
  Str.contains Spec.lf a = false ->
  Spec.lines (a +:+ Str.nl +:+ b) = a :: Spec.lines b.
Proof.
  unfold Str.contains. induction a as [|c a IH].
  - intros _. reflexivity.
  - cbn [list_ascii_of_string existsb]. intros Hc.
    apply orb_false_iff in Hc as [Hc Ha].
    rewrite append_cons. cbn [Spec.lines].
    rewrite Ascii.eqb_sym, Hc, (IH Ha). reflexivity.
Qed.

Lemma lines_join (parts : list string) :
  parts <> [] ->
  Forall (fun p => Str.contains Spec.lf p = false) parts ->
  Spec.lines (Str.join Str.nl parts) = parts.
Proof.
  intros Hne Hall. induction Hall as [|p parts Hp Hall IH]; [congruence|].
  destruct parts as [|q parts].
  - cbn [Str.join]. now apply lines_one.
  - change (Str.join Str.nl (p :: q :: parts))
      with (p +:+ Str.nl +:+ Str.join Str.nl (q :: parts)).
    rewrite lines_cons by assumption. f_equal. now apply IH.
Qed.

Section Desc.
Context `{Platform}.

Lemma field_line_one_line (kv : string * cell) :
  Str.contains Spec.lf (fst kv) = false ->
  Str.contains Spec.lf (py_str (snd kv)) = false ->
  Str.contains Spec.lf (Spec.field_line kv) = false.
Proof.
  intros Hk Hv. unfold Spec.field_line.
  rewrite !contains_app, Hk, Hv. reflexivity.
Qed.

Lemma field_lines_one_line (row : dict) :
  Forall (fun kv : string * cell =>
            Str.contains Spec.lf (fst kv) = false
            /\ Str.contains Spec.lf (py_str (snd kv)) = false) row ->
  Forall (fun p => Str.contains Spec.lf p = false)
    (map Spec.field_line row).
Proof.
  induction 1 as [|kv row' [Hk Hv] _ IH]; cbn [map]; constructor;
    [now apply field_line_one_line | exact IH].
Qed.

End Desc.

(** C9, as stated, fails: an entry is one line of the text only when
    its key and its value hold no line feed.  The row with the one
    field [note], a cell of two lines, has a description of three
    lines: the header and two lines for the one field. *)
Lemma row_description_multiline_cell :
  Spec.lines (row_description row_note)
  = ["Event details from spreadsheet:"; "- note: bring badge"; "and laptop"]
  /\ length (Spec.lines (row_description row_note)) <> S (length row_note)
  /\ ~ (forall row : dict,
          Spec.lines (row_description row)
          = "Event details from spreadsheet:" :: map Spec.field_line row).
Proof.
  split; [reflexivity|]. split; [discriminate|].
  intros Hall. specialize (Hall row_note). discriminate.
Qed.

(** C9, amended. The description is the fixed header followed by one
    entry ["- {key}: {value}"] for each field of the row, every field
    and in the row's key order, with the values stringified, the
    whole joined by line feeds; when no key and no stringified value
    holds a line feed, the lines of the description are the header
    and exactly one line per field; and it is the description of the
    event [build_event] produces. *)
Theorem row_description_entries `{Platform} `{!Parser} (row : dict) :
  let entries := map Spec.field_line row in
  row_description row
  = Str.join Str.nl ("Event details from spreadsheet:" :: entries)
  /\ length entries = length row
  /\ (forall i key value,
        row !! i = Some (key, value) ->
        entries !! i = Some ("- " +:+ key +:+ ": " +:+ py_str value))
  /\ (Forall (fun kv : string * cell =>
                Str.contains Spec.lf (fst kv) = false
                /\ Str.contains Spec.lf (py_str (snd kv)) = false) row ->
      Spec.lines (row_description row)
      = "Event details from spreadsheet:" :: entries)
  /\ (forall tz alert cal,
        build_event row tz alert = Ok cal ->
        exists event,
          subcomponents "VEVENT" cal = [event]
          /\ prop "description" event = [VText (row_description row)]).
Proof.
  intros entries.
  assert (Hjoin : row_description row
                  = Str.join Str.nl ("Event details from spreadsheet:" :: entries)).
  { unfold row_description. now rewrite description_lines_fold. }
  split; [exact Hjoin|].
  split; [apply length_map|].
  split.
  { intros i key value Hi. unfold entries, dict in *.
    change (map Spec.field_line row) with (Spec.field_line <$> row).
    rewrite list_lookup_fmap, Hi. reflexivity. }
  split.
  { intros Hone. rewrite Hjoin. apply lines_join; [discriminate|].
    constructor; [reflexivity|]. now apply field_lines_one_line. }
  intros tz alert cal Hb.
  destruct (build_event_inv row tz alert cal Hb)
    as (date_cell & start & time_cell & st & et & dtstart & cand & dtend & trigger
        & _ & _ & _ & _ & _ & _ & _ & _ & ->).
  destruct (event_of_props (event_title row) (event_venue row) (row_description row)
              dtstart dtend trigger) as (Hn & _ & _ & _ & Hdesc & _).
  eexists. split; [now apply calendar_events | exact Hdesc].
Qed.

Lemma row_description_entries_witness :
  Spec.lines (row_description row1)
  = ["Event details from spreadsheet:"; "- title: Team Sync: Q1!!";
     "- date: 2024-03-05"; "- time: 9:00 AM - 10:00 AM"; "- venue: Room 4";
     "- owner: ana"].
Proof.
  refine (proj1 (proj2 (proj2 (proj2 (row_description_entries row1)))) _).
  repeat (apply List.Forall_cons; [split; reflexivity|]). apply List.Forall_nil.
Defined.

Lemma row_description_example :
  row_description row1 =
  Str.join Str.nl
    ["Event details from spreadsheet:"; "- title: Team Sync: Q1!!";
     "- date: 2024-03-05"; "- time: 9:00 AM - 10:00 AM"; "- venue: Room 4";
     "- owner: ana"].
Proof. reflexivity. Qed.

(** ** The date *)


Lemma parse_datetime_examples :
  parse_datetime (CStr "2024-03-05") tt = Ok (MkDatetime 2024 3 5 0 0 0 0 (Some tt))
  /\ parse_datetime (CDatetime (MkDatetime 2024 3 5 8 15 0 0 None)) tt
     = Ok (MkDatetime 2024 3 5 8 15 0 0 (Some tt))
  /\ parse_datetime (CStr "soon") tt = Raise (ValueError "Unknown string format: soon").
Proof. repeat split. Qed.

(** ** Blank titles *)

Lemma isspace_not_word c : Str.isspace c = true -> Re.word_or_dash c = false.
Proof.
  destruct c as [b0 b1 b2 b3 b4 b5 b6 b7].
  destruct b0, b1, b2, b3, b4, b5, b6, b7; vm_compute; congruence.
Qed.

Lemma lstrip_all p s : Str.all_chars p s = true -> Str.lstrip p s = EmptyString.
Proof.
  unfold Str.all_chars. induction s as [|c s IH]; cbn; [reflexivity|].
  intros Hall. apply andb_true_iff in Hall as [Hc Hs]. rewrite Hc. now apply IH.
Qed.

Lemma all_chars_impl (p q : ascii -> bool) s :
  (forall c, p c = true -> q c = true) ->
  Str.all_chars p s = true -> Str.all_chars q s = true.
Proof.
  intros Hpq. unfold Str.all_chars. induction s as [|c s IH]; cbn; [reflexivity|].
  intros Hall. apply andb_true_iff in Hall as [Hc Hs].
  now rewrite (Hpq c Hc), IH.
Qed.

Lemma strip_blank t : Str.all_chars Str.isspace t = true -> Str.strip t = EmptyString.
Proof.
  intros Hall. unfold Str.strip, Str.strip_with. now rewrite lstrip_all.
Qed.

Lemma replace_runs_blank t :
  Str.all_chars Str.isspace t = true ->
  Spec.replace_runs t = EmptyString \/ Spec.replace_runs t = "_".
Proof.
  destruct t as [|c t]; [now left|]. intros Hall. right.
  assert (Hc : Re.word_or_dash c = false).
  { apply isspace_not_word. unfold Str.all_chars in Hall. cbn in Hall.
    now apply andb_true_iff in Hall as [Hc _]. }
  rewrite replace_runs_unsafe by assumption.
  rewrite lstrip_all; [reflexivity|].
  apply (all_chars_impl Str.isspace).
  - intros x Hx. now rewrite (isspace_not_word x Hx).
  - unfold Str.all_chars in *. cbn in Hall.
    now apply andb_true_iff in Hall as [_ Hall].
Qed.

Lemma safe_filename_blank t idx :
  Str.all_chars Str.isspace t = true ->
  safe_filename t idx = "event_" +:+ Str.of_Z idx +:+ ".ics".
Proof.
  intros Hall. unfold safe_filename. rewrite sub_unsafe_run.
  destruct (replace_runs_blank t Hall) as [-> | ->]; reflexivity.
Qed.

Section Series.
Context `{Platform}.

Lemma dict_set_fresh (row : dict) key v :
  key ∉ map fst row -> dict_set key v row = row ++ [(key, v)].
Proof.
  induction row as [|[k w] row IH]; cbn [dict_set map fst app]; [reflexivity|].
  intros Hn. apply not_elem_of_cons in Hn as [Hne Hn].
  destruct (String.eqb_spec k key) as [->|_]; [congruence|].
  now rewrite IH.
Qed.

Lemma to_dict_fold (row : series) : forall acc : dict,
  NoDup (map fst acc ++ map fst row) ->
  fold_left (fun d kv => dict_set (fst kv) (snd kv) d) row acc = acc ++ row.
Proof.
  induction row as [|[k v] row IH]; intros acc Hnd; cbn [fold_left fst snd].
  - now rewrite app_nil_r.
  - cbn [map fst] in Hnd.
    assert (Hk : k ∉ map fst acc).
    { apply NoDup_app in Hnd as (_ & Hdisj & _). intros Hin.
      apply (Hdisj k Hin). left. }
    rewrite dict_set_fresh by assumption.
    rewrite IH.
    + now rewrite <- app_assoc.
    + rewrite map_app. cbn [map fst]. now rewrite <- app_assoc.
Qed.

(** A row with distinct labels is its own [dict]. *)
Lemma to_dict_nodup (row : series) : NoDup (map fst row) -> to_dict row = row.
Proof. intros Hnd. unfold to_dict. now rewrite to_dict_fold. Qed.

End Series.

(** C3, as stated, fails: the file name is made from the title cell
    as read, not from the summary, so a blank title gives
    ["event_{idx}.ics"] with a small e.  On the row with title
    ["   "] at 1-based index 2 the summary is ["Event"] and the file
    is ["event_2.ics"]. *)
Lemma blank_title_filename_is_lowercase :
  event_title (to_dict row_blank) = "Event"
  /\ row_filename 1 row_blank = "event_2.ics"
  /\ row_filename 1 row_blank <> "Event_2.ics".
Proof. repeat split. discriminate. Qed.

(** C3, amended. For a row whose title cell is an empty or
    whitespace-only text, the summary of the event defaults to
    ["Event"], while the file name is made from the title cell itself
    and is ["event_{idx}.ics"], [idx] the 1-based index of the row. *)
Theorem blank_title_defaults `{Platform} `{!Parser}
    (row : series) (idx : Z) (t : string) :
  NoDup (map fst row) ->
  dict_lookup row "title" = Some (CStr t) ->
  Str.all_chars Str.isspace t = true ->
  event_title (to_dict row) = "Event"
  /\ row_filename idx row = "event_" +:+ Str.of_Z (idx + 1) +:+ ".ics"
  /\ (forall tz alert cal,
        build_event (to_dict row) tz alert = Ok cal ->
        exists event,
          subcomponents "VEVENT" cal = [event]
          /\ prop "summary" event = [VText "Event"]).
Proof.
  intros Hnd Ht Hall. rewrite (to_dict_nodup row Hnd).
  assert (Htitle : event_title row = "Event").
  { unfold event_title, dict_get. rewrite Ht. cbn [py_str].
    now rewrite strip_blank. }
  split; [exact Htitle|]. split.
  { unfold row_filename, series_get, dict_get. rewrite Ht. cbn [py_str].
    now apply safe_filename_blank. }
  intros tz alert cal Hb.
  destruct (build_event_inv row tz alert cal Hb)
    as (date_cell & start & time_cell & st & et & dtstart & cand & dtend & trigger
        & _ & _ & _ & _ & _ & _ & _ & _ & ->).
  destruct (event_of_props (event_title row) (event_venue row) (row_description row)
              dtstart dtend trigger) as (Hn & Hsum & _).
  eexists. split; [now apply calendar_events|]. now rewrite Hsum, Htitle.
Qed.

Lemma blank_title_defaults_witness :
  event_title (to_dict row_blank) = "Event"
  /\ row_filename 1 row_blank = "event_" +:+ Str.of_Z (1 + 1) +:+ ".ics".
Proof.
  destruct (blank_title_defaults row_blank 1 "   ") as (Ht & Hf & _).
  - apply (bool_decide_unpack _). vm_compute. exact I.
  - reflexivity.
  - reflexivity.
  - split; [exact Ht | exact Hf].
Defined.

(** What [main] writes for the two rows of the sample frame. *)
Lemma main_example :
  exists first second,
    main args1 frame1 =
    ([Mkdir "ics_output";
      FileWritten "ics_output" "Team_Sync_Q1_1.ics" first;
      Printed "ics_output" "Team_Sync_Q1_1.ics";
      FileWritten "ics_output" "event_2.ics" second;
      Printed "ics_output" "event_2.ics"], Ok tt).
Proof. eexists _, _. vm_compute. reflexivity. Qed.

(** ** The files of a run *)

Section Run.
Context `{Platform} `{!Parser} `{!Serializer}.

(** Row [i] of the frame comes with index [i]; its file carries
    [i + 1]. *)
Lemma iterrows_from_lookup cols rs : forall k i idx row,
  iterrows_from k cols rs !! i = Some (idx, row) ->
  idx = k + Z.of_nat i
  /\ exists cells, rs !! i = Some cells /\ row = combine cols cells.
Proof.
  induction rs as [|r rs IH]; intros k i idx row Hi; [discriminate|].
  destruct i as [|i]; cbn in Hi.
  - injection Hi as <- <-. split; [lia | eauto].
  - destruct (IH _ _ _ _ Hi) as (-> & cells & Hc & ->).
    split; [lia | eauto].
Qed.

(** Every file the loop writes is the serialized calendar of one of
    its rows, under that row's file name. *)
Lemma main_loop_written (a : Args) (tz : TzInfo) todo : forall done_ dir name data,
  FileWritten dir name data ∈ (main_loop a tz todo done_).1 ->
  FileWritten dir name data ∈ done_
  \/ exists idx row cal,
      (idx, row) ∈ todo
      /\ build_event (to_dict row) tz (alert_minutes_arg a) = Ok cal
      /\ dir = output a
      /\ name = row_filename idx row
      /\ data = to_ical cal.
Proof.
  induction todo as [|[idx row] todo IH]; intros done_ dir name data Hin;
    cbn [main_loop] in Hin; [now left|].
  destruct (build_event (to_dict row) tz (alert_minutes_arg a)) as [cal|e] eqn:Hb;
    [|now left].
  apply IH in Hin as [Hin|(idx' & row' & cal' & Hin & Hrest)].
  - apply elem_of_app in Hin as [Hin|Hin]; [now left|]. right.
    apply elem_of_cons in Hin as [Hin|Hin].
    + injection Hin as -> -> ->. exists idx, row, cal.
      repeat split; try assumption. apply elem_of_cons. now left.
    + apply list_elem_of_singleton in Hin. discriminate.
  - right. exists idx', row', cal'. split; [|exact Hrest].
    apply elem_of_cons. now right.
Qed.

(** The loop stops at the first row that raises and keeps what it
    wrote before. *)
Lemma main_loop_keeps_done (a : Args) (tz : TzInfo) todo : forall done_,
  exists later, (main_loop a tz todo done_).1 = done_ ++ later.
Proof.
  induction todo as [|[idx row] todo IH]; intros done_; cbn [main_loop].
  - exists []. now rewrite app_nil_r.
  - destruct (build_event (to_dict row) tz (alert_minutes_arg a)) as [cal|e].
    + destruct (IH (done_ ++ [FileWritten (output a) (row_filename idx row) (to_ical cal);
                             Printed (output a) (row_filename idx row)]))
        as [later ->].
      rewrite <- app_assoc. eauto.
    + exists []. now rewrite app_nil_r.
Qed.

End Run.

(** ** Two runs on the same row *)

Section TwoRuns.
Context `{P : Platform} (Q1 Q2 : Parser).

Lemma parse_datetime_agree (value : cell) (tz : TzInfo) :
  (forall text,
      text ∈ match value with CDatetime _ => [] | _ => [py_str value] end ->
      @date_parser_parse P Q1 text = @date_parser_parse P Q2 text) ->
  @parse_datetime P Q1 value tz = @parse_datetime P Q2 value tz.
Proof.
  intros Hagree. unfold parse_datetime.
  destruct value as [s|d|s]; [|reflexivity|]; cbn [py_str] in *;
    now rewrite (Hagree s) by (apply list_elem_of_singleton; reflexivity).
Qed.

Lemma parse_time_range_agree (value : cell) :
  (forall part,
      part ∈ (let parts := Re.split1 Re.hyphen (py_str value) in
              if (length parts =? 2)%nat then parts else []) ->
      time_of <$> @date_parser_parse P Q1 part
      = time_of <$> @date_parser_parse P Q2 part) ->
  @parse_time_range P Q1 value = @parse_time_range P Q2 value.
Proof.
  cbv zeta. unfold parse_time_range. intros Hagree.
  destruct (length (Re.split1 Re.hyphen (py_str value)) =? 2)%nat eqn:E;
    cbn [negb]; [|reflexivity].
  apply Nat.eqb_eq in E.
  destruct (Re.split1 Re.hyphen (py_str value)) as [|p0 [|p1 [|]]];
    try discriminate.
  cbn [nth].
  pose proof (Hagree p0 ltac:(apply elem_of_cons; now left)) as H0.
  pose proof (Hagree p1 ltac:(apply elem_of_cons; right;
                              apply elem_of_cons; now left)) as H1.
  destruct (@date_parser_parse P Q1 p0), (@date_parser_parse P Q2 p0);
    cbn in H0; try discriminate; mred; [|congruence].
  destruct (@date_parser_parse P Q1 p1), (@date_parser_parse P Q2 p1);
    cbn in H1; try discriminate; mred; congruence.
Qed.

End TwoRuns.

(** C10, as stated, fails: the parser completes a date text from the
    day of the run, so two runs on the same row, zone and alert can
    differ.  The row dated ["Jan 5"] starts on 2024-01-05 in a run of
    2024 and on 2025-01-05 in a run of 2025. *)
Lemma build_event_depends_on_run_day :
  @build_event utc_only (dateutil_on (2024, 6, 1)) row_no_year tt 30
  <> @build_event utc_only (dateutil_on (2025, 6, 1)) row_no_year tt 30.
Proof. intros E. vm_compute in E. discriminate E. Qed.

(** C10, amended. Two runs of [build_event] on the same row, zone and
    alert give the same outcome, and the same serialized bytes, when
    the parser answers alike in both: the same value for the text of
    the date cell (a date/time cell is not parsed at all) and the same
    times of day for the two parts of the time cell. *)
Theorem build_event_deterministic `{P : Platform} `{!Serializer} (Q1 Q2 : Parser)
    (row : dict) (tz : TzInfo) (alert : Z) :
  (forall text, text ∈ consulted_date row ->
                @date_parser_parse P Q1 text = @date_parser_parse P Q2 text) ->
  (forall part, part ∈ consulted_times row ->
                time_of <$> @date_parser_parse P Q1 part
                = time_of <$> @date_parser_parse P Q2 part) ->
  @build_event P Q1 row tz alert = @build_event P Q2 row tz alert
  /\ (forall cal1 cal2,
        @build_event P Q1 row tz alert = Ok cal1 ->
        @build_event P Q2 row tz alert = Ok cal2 ->
        cal1 = cal2 /\ to_ical cal1 = to_ical cal2).
Proof.
  intros Hdate Htimes.
  assert (Heq : @build_event P Q1 row tz alert = @build_event P Q2 row tz alert).
  { rewrite (@build_event_steps P Q1), (@build_event_steps P Q2).
    unfold dict_item, consulted_date, consulted_times in *.
    destruct (dict_lookup row "date") as [date_cell|]; mred; [|reflexivity].
    rewrite (parse_datetime_agree Q1 Q2 date_cell tz)
      by (destruct date_cell; exact Hdate).
    destruct (@parse_datetime P Q2 date_cell tz) as [start|]; mred; [|reflexivity].
    destruct (dict_lookup row "time") as [time_cell|]; mred; [|reflexivity].
    now rewrite (parse_time_range_agree Q1 Q2 time_cell Htimes). }
  split; [exact Heq|].
  intros cal1 cal2 H1 H2. rewrite Heq, H2 in H1. injection H1 as <-. now split.
Qed.

Lemma build_event_deterministic_witness :
  @build_event utc_only (dateutil_on (2024, 6, 1)) row1 tt 30
  = @build_event utc_only (dateutil_on (2025, 6, 1)) row1 tt 30.
Proof.
  apply (build_event_deterministic (dateutil_on (2024, 6, 1)) (dateutil_on (2025, 6, 1))
           row1 tt 30).
  - intros text Hin. vm_compute in Hin.
    apply list_elem_of_singleton in Hin as ->. reflexivity.
  - intros part Hin. vm_compute in Hin.
    apply elem_of_cons in Hin as [->|Hin]; [reflexivity|].
    apply list_elem_of_singleton in Hin as ->. reflexivity.
Defined.

(** * Further properties of the script *)

(** ** More on file names *)

Lemma all_chars_app p a b :
  Str.all_chars p (a +:+ b) = Str.all_chars p a && Str.all_chars p b.
Proof.
  unfold Str.all_chars.
  induction a as [|c a IH]; simpl; [reflexivity|].
  now rewrite IH, andb_assoc.
Qed.

Lemma lstrip_suffix p s :
  exists t, s = t +:+ Str.lstrip p s /\ Str.all_chars p t = true.
Proof.
  induction s as [|c s (t & Hs & Ht)]; cbn [Str.lstrip].
  - now exists EmptyString.
  - destruct (p c) eqn:Hc.
    + exists (String c t). split; [rewrite append_cons; f_equal; assumption|].
      unfold Str.all_chars in *. cbn. now rewrite Hc.
    + now exists EmptyString.
Qed.

Lemma rstrip_prefix p s :
  exists t, s = Str.rstrip p s +:+ t /\ Str.all_chars p t = true.
Proof.
  induction s as [|c s (t & Hs & Ht)].
  - now exists EmptyString.
  - rewrite rstrip_cons.
    destruct (String.eqb_spec (Str.rstrip p s) "") as [E|E]; cbn [andb].
    + destruct (p c) eqn:Hc.
      * exists (String c s). split; [reflexivity|].
        rewrite E, append_nil in Hs. subst t.
        unfold Str.all_chars in *. cbn. now rewrite Hc.
      * exists t. split; [rewrite append_cons; f_equal; assumption | assumption].
    + exists t. split; [rewrite append_cons; f_equal; assumption | assumption].
Qed.

Lemma lstrip_head p s c r : Str.lstrip p s = String c r -> p c = false.
Proof.
  induction s as [|c0 s IH]; cbn [Str.lstrip]; [discriminate|].
  destruct (p c0) eqn:Hc; [assumption|]. intros E. injection E as <- _. assumption.
Qed.

Lemma rstrip_last p s : forall r c,
  Str.rstrip p s = r +:+ String c EmptyString -> p c = false.
Proof.
  induction s as [|c0 s IH]; intros r c; [destruct r; discriminate|].
  rewrite rstrip_cons.
  destruct (String.eqb_spec (Str.rstrip p s) "") as [E|E]; cbn [andb].
  - destruct (p c0) eqn:Hc; [destruct r; discriminate|].
    rewrite E. destruct r as [|c1 r]; rewrite ?append_cons, ?append_nil; intros H.
    + injection H as <-. assumption.
    + injection H as _ H. destruct r; discriminate.
  - destruct r as [|c1 r]; rewrite ?append_cons, ?append_nil; intros H.
    + injection H as _ H. congruence.
    + injection H as _ H. now apply (IH r c).
Qed.

Lemma rstrip_head p s c r :
  Str.rstrip p s = String c r -> exists s', s = String c s'.
Proof.
  destruct s as [|c0 s]; [discriminate|]. rewrite rstrip_cons.
  destruct (String.eqb (Str.rstrip p s) "" && p c0); [discriminate|].
  intros E. injection E as <- _. eauto.
Qed.

(** What [strip] leaves has nothing to strip at either end. *)
Lemma strip_with_ends p s :
  (forall c r, Str.strip_with p s = String c r -> p c = false)
  /\ (forall r c, Str.strip_with p s = r +:+ String c EmptyString -> p c = false).
Proof.
  unfold Str.strip_with. split.
  - intros c r E. destruct (rstrip_head _ _ _ _ E) as [s' Hs'].
    now apply (lstrip_head p s c s').
  - intros r c. apply rstrip_last.
Qed.

Lemma all_chars_strip_with q p s :
  Str.all_chars q s = true -> Str.all_chars q (Str.strip_with p s) = true.
Proof.
  intros Hall. unfold Str.strip_with.
  destruct (lstrip_suffix p s) as (t1 & E1 & _).
  destruct (rstrip_prefix p (Str.lstrip p s)) as (t2 & E2 & _).
  rewrite E1, all_chars_app in Hall. apply andb_true_iff in Hall as [_ Hall].
  rewrite E2, all_chars_app in Hall. now apply andb_true_iff in Hall as [Hall _].
Qed.

Lemma sub_unsafe_run_chars n : forall s,
  (String.length s <= n)%nat ->
  Str.all_chars Re.word_or_dash (Re.sub_fuel n Re.unsafe_run "_" s) = true.
Proof.
  induction n as [|n IH]; intros s Hn.
  - destruct s; [reflexivity | simpl in Hn; lia].
  - destruct s as [|c s]; [reflexivity|].
    cbn [Re.sub_fuel]. rewrite match_unsafe_run. simpl in Hn.
    destruct (Re.word_or_dash c) eqn:Hc.
    + unfold Str.all_chars in *. cbn. rewrite Hc. apply IH. lia.
    + pose proof (lstrip_length (fun x => negb (Re.word_or_dash x)) s) as Hl.
      replace (String.length _ <? String.length (String c s))%nat with true
        by (symmetry; apply Nat.ltb_lt; simpl; lia).
      rewrite all_chars_app. apply andb_true_iff. split; [reflexivity|].
      apply IH. lia.
Qed.

Lemma safe_stem_chars title : Str.all_chars Re.word_or_dash (safe_stem title) = true.
Proof.
  unfold safe_stem.
  assert (H : Str.all_chars Re.word_or_dash
                (Str.strip_chars "_" (Re.sub Re.unsafe_run "_" title)) = true).
  { apply all_chars_strip_with. apply sub_unsafe_run_chars. lia. }
  destruct (Str.strip_chars "_" (Re.sub Re.unsafe_run "_" title));
    [reflexivity | exact H].
Qed.

Lemma string_of_uint_digits d :
  Str.all_chars (Str.in_range "0" "9") (NilEmpty.string_of_uint d) = true.
Proof.
  unfold Str.all_chars.
  induction d; cbn [NilEmpty.string_of_uint list_ascii_of_string forallb];
    [reflexivity | rewrite IHd; reflexivity ..].
Qed.

Lemma of_Z_chars n : Str.all_chars digit_or_minus (Str.of_Z n) = true.
Proof.
  assert (Hu : forall d, Str.all_chars digit_or_minus (NilZero.string_of_uint d) = true).
  { intros d. apply (all_chars_impl (Str.in_range "0" "9")).
    - intros c Hc. unfold digit_or_minus. now rewrite Hc.
    - destruct d; try apply string_of_uint_digits. reflexivity. }
  unfold Str.of_Z. destruct (Z.to_int n) as [d|d]; cbn [NilZero.string_of_int].
  - apply Hu.
  - unfold Str.all_chars. cbn. apply Hu.
Qed.

Lemma all_chars_not_contains p c s :
  p c = false -> Str.all_chars p s = true -> Str.contains c s = false.
Proof.
  intros Hc. unfold Str.contains, Str.all_chars.
  induction (list_ascii_of_string s) as [|x l IH]; cbn [forallb existsb];
    [reflexivity|].
  intros Hall. apply andb_true_iff in Hall as [Hx Hl]. rewrite (IH Hl), orb_false_r.
  destruct (Ascii.eqb_spec c x) as [<-|]; [congruence | reflexivity].
Qed.

Lemma safe_filename_stem title idx :
  safe_filename title idx = safe_stem title +:+ "_" +:+ Str.of_Z idx +:+ ".ics".
Proof. reflexivity. Qed.

(** X1. Whatever the title and the index, the file name
    [safe_filename] returns is made of ASCII letters, digits, [_],
    [-] and [.] only; in particular it holds no [/]. *)
Theorem safe_filename_chars (title : string) (row_index : Z) :
  Str.all_chars filename_char (safe_filename title row_index) = true
  /\ Str.contains "/" (safe_filename title row_index) = false.
Proof.
  assert (Hall : Str.all_chars filename_char (safe_filename title row_index) = true).
  { rewrite safe_filename_stem, !all_chars_app.
    apply andb_true_iff. split.
    { apply (all_chars_impl Re.word_or_dash); [|apply safe_stem_chars].
      intros c Hc. unfold filename_char. now rewrite Hc. }
    apply andb_true_iff. split; [reflexivity|].
    apply andb_true_iff. split; [|reflexivity].
    apply (all_chars_impl digit_or_minus); [|apply of_Z_chars].
    intros c Hc. unfold digit_or_minus in Hc. unfold filename_char, Re.word_or_dash.
    apply orb_true_iff in Hc as [->| ->]; now rewrite ?orb_true_r. }
  split; [exact Hall|].
  now apply (all_chars_not_contains filename_char).
Qed.

(** X2. A file name is a stem, an underscore, the index in decimal
    and [.ics]; the stem is never empty and neither starts nor ends
    with an underscore. *)
Theorem safe_stem_shape (title : string) (row_index : Z) :
  safe_filename title row_index
  = safe_stem title +:+ "_" +:+ Str.of_Z row_index +:+ ".ics"
  /\ safe_stem title <> EmptyString
  /\ (forall c r, safe_stem title = String c r -> c <> "_"%char)
  /\ (forall r c, safe_stem title = r +:+ String c EmptyString -> c <> "_"%char).
Proof.
  split; [reflexivity|].
  assert (Hstrip : exists s, s <> EmptyString
                             /\ safe_stem title = Str.strip_chars "_" s
                             /\ Str.strip_chars "_" s <> EmptyString).
  { unfold safe_stem.
    destruct (Str.strip_chars "_" (Re.sub Re.unsafe_run "_" title)) as [|c r] eqn:E.
    - exists "event". repeat split; discriminate.
    - exists (Re.sub Re.unsafe_run "_" title). rewrite E. repeat split; try discriminate.
      intros Hs. rewrite Hs in E. discriminate. }
  destruct Hstrip as (s & _ & -> & Hne).
  split; [exact Hne|].
  destruct (strip_with_ends
              (fun c => existsb (Ascii.eqb c) (list_ascii_of_string "_")) s)
    as [Hhead Hlast].
  split.
  - intros c r E Hc. subst c. specialize (Hhead _ _ E). discriminate.
  - intros r c E Hc. subst c. specialize (Hlast _ _ E). discriminate.
Qed.

Lemma length_append a b :
  String.length (a +:+ b) = (String.length a + String.length b)%nat.
Proof. induction a as [|c a IH]; [reflexivity|]. rewrite append_cons. cbn. now rewrite IH. Qed.

Lemma append_inj_r x : forall a b, a +:+ x = b +:+ x -> a = b.
Proof.
  induction a as [|c a IH]; intros [|d b] E.
  - reflexivity.
  - apply (f_equal String.length) in E. rewrite append_nil, !length_append in E.
    cbn in E. lia.
  - apply (f_equal String.length) in E. rewrite append_nil, !length_append in E.
    cbn in E. lia.
  - rewrite !append_cons in E. injection E as -> E. f_equal. now apply IH.
Qed.

(** The last [sep] of a text cuts it in one way only. *)
Lemma cut_at_last sep x y : forall a b,
  Str.contains sep x = false ->
  Str.contains sep y = false ->
  a +:+ String sep x = b +:+ String sep y ->
  a = b /\ x = y.
Proof.
  assert (Hsep : forall t u, Str.contains sep (t +:+ String sep u) = true).
  { intros t u. rewrite contains_app. unfold Str.contains at 2.
    cbn [list_ascii_of_string existsb]. rewrite Ascii.eqb_refl. apply orb_true_r. }
  induction a as [|c a IH]; intros [|d b] Hx Hy E;
    rewrite ?append_cons, ?append_nil in E.
  - injection E as ->. now split.
  - injection E as <- E. rewrite E, Hsep in Hx. discriminate.
  - injection E as -> E. rewrite <- E, Hsep in Hy. discriminate.
  - injection E as -> E. destruct (IH b Hx Hy E) as [-> ->]. now split.
Qed.

Lemma of_Z_inj a b : Str.of_Z a = Str.of_Z b -> a = b.
Proof.
  unfold Str.of_Z. intros E. apply DecimalZ.to_int_inj.
  assert (Hn : forall z, Z.to_int z <> Decimal.Pos Decimal.Nil
                         /\ Z.to_int z <> Decimal.Neg Decimal.Nil).
  { intros [|p|p]; cbn; split; try discriminate; intros H; injection H as H;
      now apply (DecimalPos.Unsigned.to_uint_nonnil p). }
  destruct (Hn a) as [Ha1 Ha2]. destruct (Hn b) as [Hb1 Hb2].
  pose proof (NilZero.isi _ Ha1 Ha2) as Ia. pose proof (NilZero.isi _ Hb1 Hb2) as Ib.
  rewrite E in Ia. congruence.
Qed.

Lemma index_suffix_no_underscore idx :
  Str.contains "_" (Str.of_Z idx +:+ ".ics") = false.
Proof.
  apply (all_chars_not_contains (fun c => digit_or_minus c || Ascii.eqb c "."
                                          || Str.in_range "a" "z" c));
    [reflexivity|].
  rewrite all_chars_app. apply andb_true_iff. split; [|reflexivity].
  apply (all_chars_impl digit_or_minus); [|apply of_Z_chars].
  now intros c ->.
Qed.

(** Two file names are equal only for the same stem and the same
    index: the text after the last underscore is the index. *)
Lemma safe_filename_index (title1 title2 : string) (i j : Z) :
  safe_filename title1 i = safe_filename title2 j ->
  safe_stem title1 = safe_stem title2 /\ i = j.
Proof.
  rewrite !safe_filename_stem.
  change (?s +:+ "_" +:+ ?r) with (s +:+ String "_" r).
  intros E.
  apply cut_at_last in E as [Hs Hi]; try apply index_suffix_no_underscore.
  split; [exact Hs|]. apply append_inj_r in Hi. now apply of_Z_inj.
Qed.

(** X3. Two file names are equal exactly when their stems are equal
    and their indexes are equal: the index can be read back from the
    name, whatever the title. *)
Theorem safe_filename_inj (title1 title2 : string) (i j : Z) :
  safe_filename title1 i = safe_filename title2 j <->
  safe_stem title1 = safe_stem title2 /\ i = j.
Proof.
  split; [apply safe_filename_index|].
  intros [Hs ->]. now rewrite !safe_filename_stem, Hs.
Qed.

Lemma replace_runs_all_keep s :
  Str.all_chars Re.word_or_dash s = true -> Spec.replace_runs s = s.
Proof.
  unfold Str.all_chars. induction s as [|c s IH]; [reflexivity|].
  cbn [list_ascii_of_string forallb]. intros Hall.
  apply andb_true_iff in Hall as [Hc Hs].
  rewrite replace_runs_keep by assumption. now rewrite IH.
Qed.

(** X4. A title that is not empty, is made of ASCII letters, digits,
    [_] and [-] only and has no underscore at either end is the stem
    of its file name, unchanged. *)
Theorem safe_filename_keeps_safe_title (title : string) (row_index : Z) :
  title <> EmptyString ->
  Str.all_chars Re.word_or_dash title = true ->
  Str.strip_chars "_" title = title ->
  safe_filename title row_index = title +:+ "_" +:+ Str.of_Z row_index +:+ ".ics".
Proof.
  intros Hne Hall Hstrip. unfold safe_filename.
  rewrite sub_unsafe_run, replace_runs_all_keep, Hstrip by assumption.
  now destruct title.
Qed.

Lemma safe_filename_keeps_safe_title_witness :
  safe_filename "Q3_all-hands" 7 = "Q3_all-hands" +:+ "_" +:+ Str.of_Z 7 +:+ ".ics".
Proof.
  apply safe_filename_keeps_safe_title; [discriminate | reflexivity | reflexivity].
Defined.

(** ** More on a run *)

Section RunMore.
Context `{Platform} `{!Parser} `{!Serializer}.

Lemma main_loop_ok (a : Args) (tz : TzInfo) todo cals : forall done_,
  built a tz todo cals ->
  main_loop a tz todo done_ = (done_ ++ all_written a todo cals, Ok tt).
Proof.
  intros done_ Hb. revert done_.
  induction Hb as [|[idx row] cal todo cals Hcal Hb IH]; intros done_.
  - cbn. now rewrite app_nil_r.
  - cbn [main_loop]. cbn [snd] in Hcal. rewrite Hcal, IH.
    unfold all_written. cbn [zip_with concat fst snd]. unfold written at 2.
    now rewrite <- app_assoc.
Qed.

Lemma main_loop_raise (a : Args) (tz : TzInfo) before cals idx row e after :
  forall done_,
  built a tz before cals ->
  build_event (to_dict row) tz (alert_minutes_arg a) = Raise e ->
  main_loop a tz (before ++ (idx, row) :: after) done_
  = (done_ ++ all_written a before cals, Raise e).
Proof.
  intros done_ Hb He. revert done_.
  induction Hb as [|[idx0 row0] cal todo cals Hcal Hb IH]; intros done_.
  - cbn. rewrite He. now rewrite app_nil_r.
  - cbn [main_loop app]. cbn [snd] in Hcal. rewrite Hcal, IH.
    unfold all_written. cbn [zip_with concat fst snd]. unfold written at 2.
    now rewrite <- app_assoc.
Qed.

Lemma all_written_length (a : Args) (tz : TzInfo) (cols : list string) rs :
  forall k cals,
  built a tz (iterrows_from k cols rs) cals ->
  length (all_written a (iterrows_from k cols rs) cals) = (2 * length rs)%nat.
Proof.
  induction rs as [|r rs IH]; intros k cals Hb.
  - inversion Hb; subst. reflexivity.
  - cbn [iterrows_from] in Hb. inversion Hb as [|? cal ? cals' _ Hb']; subst.
    unfold all_written. cbn [iterrows_from zip_with concat length app written].
    fold (all_written a (iterrows_from (k + 1) cols rs) cals').
    rewrite (IH (k + 1) cals' Hb'). cbn [length]. lia.
Qed.

End RunMore.

Section Labels.
Context `{Platform}.

Lemma combine_labels_nodup (cols : list string) (cells : list cell) :
  NoDup cols -> NoDup (map fst (combine cols cells)).
Proof.
  intros Hnd. revert cells.
  induction Hnd as [|c cols Hc Hnd IH]; intros [|v cells]; cbn [combine map fst];
    try constructor.
  - intros Hin. apply Hc. clear -Hin.
    revert cells Hin. induction cols as [|c' cols IH']; intros [|v' cells] Hin;
      cbn [combine map fst] in Hin; try (now inversion Hin).
    apply elem_of_cons in Hin as [->|Hin]; [left | right; eauto].
  - apply IH.
Qed.

(** With distinct labels the cell [row.get] returns is the one under
    the same key of [row.to_dict()]. *)
Lemma iterrows_title_cell (df : DataFrame) :
  NoDup (columns df) ->
  Forall (fun ir : Z * series =>
            series_get ir.2 "title" (CStr "event")
            = dict_get (to_dict ir.2) "title" (CStr "event"))
    (iterrows df).
Proof.
  intros Hnd. apply Forall_forall. intros [idx row] Hin.
  apply list_elem_of_lookup in Hin as [i Hi]. unfold iterrows in Hi.
  apply iterrows_from_lookup in Hi as (_ & cells & _ & ->). cbn [snd].
  rewrite to_dict_nodup by now apply combine_labels_nodup. reflexivity.
Qed.

End Labels.

(** X5. When the time zone is known, the required columns are
    present, the normalized headers are pairwise distinct and every
    row builds its calendar, [main] creates the output directory,
    then for each row in order writes the row's file and prints its
    line, and returns normally: after the directory there are two
    effects per row of the sheet, and the title cell each file is
    named from is the one of the row's dict. *)
Theorem main_writes_every_row `{Platform} `{!Parser} `{!Serializer}
    (a : Args) (df df' : DataFrame) (tz : TzInfo) (cals : list component) :
  pytz_timezone (timezone a) = Ok tz ->
  normalize_columns df = Ok df' ->
  NoDup (columns df') ->
  built a tz (iterrows df') cals ->
  main a df = (Mkdir (output a) :: all_written a (iterrows df') cals, Ok tt)
  /\ length (all_written a (iterrows df') cals) = (2 * length (rows df))%nat
  /\ Forall (fun ir : Z * series =>
               series_get ir.2 "title" (CStr "event")
               = dict_get (to_dict ir.2) "title" (CStr "event"))
       (iterrows df').
Proof.
  intros Htz Hdf Hnd Hb. unfold main. rewrite Htz, Hdf.
  split; [now rewrite (main_loop_ok a tz _ cals) by assumption|].
  split; [|now apply iterrows_title_cell].
  assert (Hrows : rows df' = rows df).
  { rewrite normalize_columns_cases in Hdf.
    destruct (Spec.missing_columns (columns df)); [|discriminate].
    now injection Hdf as <-. }
  rewrite <- Hrows. now apply (all_written_length a tz).
Qed.

Lemma main_writes_every_row_witness :
  exists cals,
    main args1 frame1
    = (Mkdir "ics_output"
         :: all_written args1
              (iterrows (rename_columns (fun h => Str.lower (Str.strip h)) frame1)) cals,
       Ok tt).
Proof.
  eexists.
  refine (proj1 (main_writes_every_row args1 frame1
                   (rename_columns (fun h => Str.lower (Str.strip h)) frame1) tt _
                   eq_refl _ _ _)).
  - vm_compute. reflexivity.
  - apply (bool_decide_unpack _). vm_compute. exact I.
  - unfold built. cbn [iterrows iterrows_from rename_columns rows columns frame1].
    repeat (eapply List.Forall2_cons; [vm_compute; reflexivity|]). apply List.Forall2_nil.
Defined.

(** X6. With pairwise distinct normalized headers, the first row on
    which [build_event] raises ends the run with that exception: the
    directory and the files of the rows before it are written and
    printed, each named from the title cell of its row's dict, and
    nothing is written for that row or for any row after it. *)
Theorem main_stops_at_first_failure `{Platform} `{!Parser} `{!Serializer}
    (a : Args) (df df' : DataFrame) (tz : TzInfo)
    before (cals : list component) idx row after e :
  pytz_timezone (timezone a) = Ok tz ->
  normalize_columns df = Ok df' ->
  NoDup (columns df') ->
  iterrows df' = before ++ (idx, row) :: after ->
  built a tz before cals ->
  build_event (to_dict row) tz (alert_minutes_arg a) = Raise e ->
  main a df = (Mkdir (output a) :: all_written a before cals, Raise e)
  /\ Forall (fun ir : Z * series =>
               series_get ir.2 "title" (CStr "event")
               = dict_get (to_dict ir.2) "title" (CStr "event"))
       before.
Proof.
  intros Htz Hdf Hnd Hrows Hb He. split.
  - unfold main. rewrite Htz, Hdf, Hrows.
    now rewrite (main_loop_raise a tz before cals idx row e after).
  - pose proof (iterrows_title_cell df' Hnd) as Hall.
    rewrite Hrows in Hall. now apply Forall_app in Hall as [Hall _].
Qed.

Lemma main_stops_at_first_failure_witness :
  exists cals,
    main args1
      (MkDataFrame _ ["title"; "date"; "time"; "venue"]
         [[CStr "Standup"; CStr "2024-03-05"; CStr "9:00 AM - 10:00 AM"; CStr ""];
          [CStr "Lunch"; CStr "2024-03-05"; CStr "noon"; CStr ""];
          [CStr "Review"; CStr "2024-03-05"; CStr "9:00 AM - 10:00 AM"; CStr ""]])
    = (Mkdir "ics_output"
         :: all_written args1
              [(0, combine ["title"; "date"; "time"; "venue"]
                     [CStr "Standup"; CStr "2024-03-05"; CStr "9:00 AM - 10:00 AM";
                      CStr ""])]
              cals,
       Raise (ValueError "Time column must contain a start and end time separated by a hyphen (e.g., '9:00 AM - 10:00 AM').")).
Proof.
  eexists.
  refine (proj1 (main_stops_at_first_failure args1 _ _ tt _ _ 1 _ _ _ eq_refl _ _ _ _ _)).
  - vm_compute. reflexivity.
  - apply (bool_decide_unpack _). vm_compute. exact I.
  - cbn [iterrows iterrows_from rows columns app]. reflexivity.
  - eapply List.Forall2_cons; [vm_compute; reflexivity|]. apply List.Forall2_nil.
  - vm_compute. reflexivity.
Defined.

(** X7. Given the frame read from the sheet, [main] does nothing to
    the outside exactly when the time zone name is refused by pytz or
    [normalize_columns] raises; in every other run its first effect
    is the creation of the output directory. *)
Theorem main_creates_directory `{Platform} `{!Parser} `{!Serializer}
    (a : Args) (df : DataFrame) :
  ((main a df).1 = [] <->
   raises (pytz_timezone (timezone a)) \/ raises (normalize_columns df))
  /\ ((main a df).1 <> [] ->
      exists later, (main a df).1 = Mkdir (output a) :: later).
Proof.
  unfold main, raises.
  destruct (pytz_timezone (timezone a)) as [tz|e1].
  - destruct (normalize_columns df) as [df'|e2].
    + destruct (main_loop_keeps_done a tz (iterrows df') [Mkdir (output a)])
        as [later ->].
      split; [|intros _; now exists later].
      split; [discriminate|]. intros [[e He]|[e He]]; discriminate.
    + split; [|intros Hne; now destruct Hne].
      split; [eauto | reflexivity].
  - split; [|intros Hne; now destruct Hne].
    split; [eauto | reflexivity].
Qed.

(** X8. With pairwise distinct normalized headers, every file a run
    writes is in the output directory, holds the serialized calendar
    [build_event] produced for one row of the sheet read under the
    normalized headers, and is named by [safe_filename] from that
    row's title cell, the one of the row's dict, and its 1-based
    position. *)
Theorem main_files_come_from_rows `{Platform} `{!Parser} `{!Serializer}
    (a : Args) (df : DataFrame) (dir name data : string) :
  NoDup (map (fun h => Str.lower (Str.strip h)) (columns df)) ->
  FileWritten dir name data ∈ (main a df).1 ->
  dir = output a
  /\ exists (i : nat) cells tz cal,
      pytz_timezone (timezone a) = Ok tz
      /\ rows df !! i = Some cells
      /\ let row := combine (map (fun h => Str.lower (Str.strip h)) (columns df)) cells in
         build_event (to_dict row) tz (alert_minutes_arg a) = Ok cal
         /\ name = safe_filename (py_str (series_get row "title" (CStr "event")))
                     (Z.of_nat i + 1)
         /\ series_get row "title" (CStr "event")
            = dict_get (to_dict row) "title" (CStr "event")
         /\ data = to_ical cal.
Proof.
  intros Hnd. unfold main.
  destruct (pytz_timezone (timezone a)) as [tz|e1]; [|intros Hin; inversion Hin].
  rewrite normalize_columns_cases.
  destruct (Spec.missing_columns (columns df)); [|intros Hin; inversion Hin].
  intros Hin. apply main_loop_written in Hin as [Hin|(idx & row & cal & Hin & Hb & -> & -> & ->)].
  - apply list_elem_of_singleton in Hin. discriminate.
  - split; [reflexivity|].
    apply list_elem_of_lookup in Hin as [i Hi]. unfold iterrows in Hi.
    apply iterrows_from_lookup in Hi as (-> & cells & Hc & ->).
    exists i, cells, tz, cal. cbn [rename_columns columns rows] in *.
    split; [reflexivity|]. split; [assumption|]. cbn zeta.
    split; [assumption|]. split; [reflexivity|]. split; [|reflexivity].
    rewrite to_dict_nodup by now apply combine_labels_nodup. reflexivity.
Qed.

Lemma main_files_come_from_rows_witness :
  exists data,
    FileWritten "ics_output" "event_2.ics" data ∈ (main args1 frame1).1
    /\ exists (i : nat) cells tz cal,
        pytz_timezone (timezone args1) = Ok tz
        /\ rows frame1 !! i = Some cells
        /\ let row := combine (map (fun h => Str.lower (Str.strip h)) (columns frame1))
                        cells in
           build_event (to_dict row) tz (alert_minutes_arg args1) = Ok cal
           /\ "event_2.ics"
              = safe_filename (py_str (series_get row "title" (CStr "event")))
                  (Z.of_nat i + 1)
           /\ series_get row "title" (CStr "event")
              = dict_get (to_dict row) "title" (CStr "event")
           /\ data = to_ical cal.
Proof.
  assert (Hin : exists data,
             FileWritten "ics_output" "event_2.ics" data ∈ (main args1 frame1).1).
  { eexists. vm_compute. do 3 apply list_elem_of_further. apply list_elem_of_here. }
  destruct Hin as [data Hin]. exists data. split; [exact Hin|].
  refine (proj2 (main_files_come_from_rows args1 frame1 _ _ _ _ Hin)).
  apply (bool_decide_unpack _). vm_compute. exact I.
Defined.

(** ** Blank texts *)

Lemma strip_with_empty p s :
  Str.strip_with p s = EmptyString <-> Str.all_chars p s = true.
Proof.
  unfold Str.strip_with. split.
  - intros E.
    destruct (lstrip_suffix p s) as (t1 & E1 & H1).
    destruct (rstrip_prefix p (Str.lstrip p s)) as (t2 & E2 & H2).
    rewrite E, append_nil in E2. rewrite E1, E2, all_chars_app, H1, H2. reflexivity.
  - intros Hall. now rewrite lstrip_all.
Qed.

Lemma rstrip_all p s : Str.all_chars p s = true -> Str.rstrip p s = EmptyString.
Proof.
  unfold Str.all_chars. induction s as [|c s IH]; [reflexivity|].
  cbn [list_ascii_of_string forallb]. intros Hall.
  apply andb_true_iff in Hall as [Hc Hs].
  rewrite rstrip_cons, (IH Hs), Hc. reflexivity.
Qed.

Lemma rstrip_app_blank p a w :
  Str.all_chars p w = true -> Str.rstrip p (a +:+ w) = Str.rstrip p a.
Proof.
  intros Hw. induction a as [|c a IH].
  - rewrite append_nil. now apply rstrip_all.
  - rewrite append_cons, !rstrip_cons, IH. reflexivity.
Qed.

Lemma lstrip_app_blank p w b :
  Str.all_chars p w = true -> Str.lstrip p (w +:+ b) = Str.lstrip p b.
Proof.
  unfold Str.all_chars. induction w as [|c w IH]; [reflexivity|].
  cbn [list_ascii_of_string forallb]. intros Hall.
  apply andb_true_iff in Hall as [Hc Hw].
  rewrite append_cons. cbn [Str.lstrip]. rewrite Hc. now apply IH.
Qed.

Lemma cut_at_hyphen_app a b :
  Str.contains "-" a = false ->
  Spec.cut_at_hyphen (a +:+ "-" +:+ b) = Some (a, b).
Proof.
  unfold Str.contains. induction a as [|c a IH].
  - reflexivity.
  - cbn [list_ascii_of_string existsb]. intros Hc.
    apply orb_false_iff in Hc as [Hc Ha].
    rewrite append_cons. cbn [Spec.cut_at_hyphen].
    rewrite Ascii.eqb_sym, Hc, (IH Ha). reflexivity.
Qed.

Lemma blank_no_hyphen w :
  Str.all_chars Str.isspace w = true -> Str.contains "-" w = false.
Proof.
  apply all_chars_not_contains. reflexivity.
Qed.

Lemma append_assoc (a b c : string) : (a +:+ b) +:+ c = a +:+ (b +:+ c).
Proof.
  induction a as [|x a IH]; [reflexivity|]. now rewrite !append_cons, IH.
Qed.

(** The split of a text around its first hyphen, whatever blanks
    surround the hyphen. *)
Lemma split_time_spaced a w1 w2 b :
  Str.contains "-" a = false ->
  Str.all_chars Str.isspace w1 = true ->
  Str.all_chars Str.isspace w2 = true ->
  Re.split1 Re.hyphen (a +:+ w1 +:+ "-" +:+ w2 +:+ b)
  = [Str.rstrip Str.isspace a; Str.lstrip Str.isspace b].
Proof.
  intros Ha H1 H2. rewrite split1_hyphen. unfold Spec.split_time.
  rewrite <- (append_assoc a w1). rewrite cut_at_hyphen_app.
  - now rewrite rstrip_app_blank, lstrip_app_blank.
  - rewrite contains_app, Ha. now apply blank_no_hyphen.
Qed.

(** X9. The blanks around the first hyphen of a time cell do not
    matter: for a text [a] without hyphen and whitespace-only [w1]
    and [w2], the cell [a w1 - w2 b] gives the times parsed from [a]
    without its trailing whitespace and from [b] without its leading
    whitespace, as the cell [a-b] does.  Hyphens of [b] are left to
    the parser. *)
Theorem parse_time_range_spacing `{Platform} `{!Parser}
    (a w1 w2 b : string) :
  Str.contains "-" a = false ->
  Str.all_chars Str.isspace w1 = true ->
  Str.all_chars Str.isspace w2 = true ->
  parse_time_range (CStr (a +:+ w1 +:+ "-" +:+ w2 +:+ b))
  = (start ← date_parser_parse (Str.rstrip Str.isspace a);
     stop ← date_parser_parse (Str.lstrip Str.isspace b);
     mret (time_of start, time_of stop))
  /\ parse_time_range (CStr (a +:+ w1 +:+ "-" +:+ w2 +:+ b))
     = parse_time_range (CStr (a +:+ "-" +:+ b)).
Proof.
  intros Ha H1 H2.
  assert (E : forall u v,
             Str.all_chars Str.isspace u = true ->
             Str.all_chars Str.isspace v = true ->
             parse_time_range (CStr (a +:+ u +:+ "-" +:+ v +:+ b))
             = (start ← date_parser_parse (Str.rstrip Str.isspace a);
                stop ← date_parser_parse (Str.lstrip Str.isspace b);
                mret (time_of start, time_of stop))).
  { intros u v Hu Hv. unfold parse_time_range. cbn [py_str].
    rewrite split_time_spaced by assumption. reflexivity. }
  split; [now apply E|].
  rewrite (E w1 w2 H1 H2). symmetry. apply (E EmptyString EmptyString); reflexivity.
Qed.

Lemma parse_time_range_spacing_witness :
  parse_time_range (CStr "9:00 AM   -  10:00 AM")
  = parse_time_range (CStr "9:00 AM-10:00 AM").
Proof.
  exact (proj2 (parse_time_range_spacing "9:00 AM" "   " "  " "10:00 AM"
                  eq_refl eq_refl eq_refl)).
Defined.

(** ** The event's texts *)

Section EventTexts.
Context `{Platform} `{!Parser}.

Lemma build_event_event (row : dict) (tz : TzInfo) (alert : Z) (cal : component) :
  build_event row tz alert = Ok cal ->
  exists dtstart dtend trigger,
    subcomponents "VEVENT" cal
    = [event_of (event_title row) (event_venue row) (row_description row)
         dtstart dtend trigger].
Proof.
  intros Hb.
  destruct (build_event_inv row tz alert cal Hb)
    as (dc & start & tc & st & et & dtstart & cand & dtend & trigger
        & _ & _ & _ & _ & _ & _ & _ & _ & ->).
  exists dtstart, dtend, trigger. apply calendar_events.
  apply event_of_props.
Qed.

Lemma event_of_location title venue description
    (dtstart dtend : datetime TzInfo) trigger :
  prop "location" (event_of title venue description dtstart dtend trigger)
  = match venue with EmptyString => [] | _ => [VText venue] end.
Proof. destruct venue; reflexivity. Qed.

End EventTexts.

(** X10. The event of a produced calendar has a [location] property
    exactly when the text of the venue cell is not blank (a row
    without venue key counts as blank); its value is then that text
    without the surrounding whitespace. *)
Theorem build_event_location `{Platform} `{!Parser}
    (row : dict) (tz : TzInfo) (alert : Z) (cal : component) :
  build_event row tz alert = Ok cal ->
  let venue := py_str (dict_get row "venue" (CStr "")) in
  exists event,
    subcomponents "VEVENT" cal = [event]
    /\ prop "location" event
       = if Str.all_chars Str.isspace venue then [] else [VText (Str.strip venue)].
Proof.
  intros Hb venue.
  destruct (build_event_event row tz alert cal Hb) as (dtstart & dtend & trigger & E).
  eexists. split; [exact E|].
  rewrite event_of_location. unfold event_venue. fold venue.
  destruct (Str.all_chars Str.isspace venue) eqn:Hblank.
  - unfold Str.strip. now rewrite (proj2 (strip_with_empty _ _) Hblank).
  - destruct (Str.strip venue) eqn:Es; [|reflexivity].
    apply strip_with_empty in Es. congruence.
Qed.

Lemma build_event_location_witness :
  exists cal event,
    build_event row1 tt 30 = Ok cal
    /\ subcomponents "VEVENT" cal = [event]
    /\ prop "location" event = [VText "Room 4"].
Proof.
  assert (Hb : exists cal, build_event row1 tt 30 = Ok cal)
    by (eexists; vm_compute; reflexivity).
  destruct Hb as [cal Hb]. exists cal.
  destruct (build_event_location row1 tt 30 cal Hb) as (event & E & Hl).
  exists event. repeat split; assumption.
Defined.

(** X11. The summary of a produced event is never empty and has no
    whitespace at either end. *)
Theorem build_event_summary `{Platform} `{!Parser}
    (row : dict) (tz : TzInfo) (alert : Z) (cal : component) :
  build_event row tz alert = Ok cal ->
  exists event summary,
    subcomponents "VEVENT" cal = [event]
    /\ prop "summary" event = [VText summary]
    /\ summary <> EmptyString
    /\ (forall c r, summary = String c r -> Str.isspace c = false)
    /\ (forall r c, summary = r +:+ String c EmptyString -> Str.isspace c = false).
Proof.
  intros Hb.
  destruct (build_event_event row tz alert cal Hb) as (dtstart & dtend & trigger & E).
  eexists. exists (event_title row). split; [exact E|].
  split; [apply event_of_props|].
  unfold event_title.
  set (t := py_str (dict_get row "title" (CStr "Event"))).
  destruct (strip_with_ends Str.isspace t) as [Hfirst Hlast].
  fold (Str.strip t) in Hfirst, Hlast.
  destruct (Str.strip t) as [|c0 r0] eqn:Es; cbn [Str.or_else].
  - split; [discriminate|]. split.
    + intros c r Ec. now injection Ec as <- _.
    + intros r c Ec.
      assert (El : String.length (r +:+ String c EmptyString) = 5%nat)
        by now rewrite <- Ec.
      rewrite length_append in El. cbn [String.length] in El.
      do 5 (destruct r as [|? r]; [try (cbn in El; lia)|]); [|cbn in El; lia].
      rewrite !append_cons, append_nil in Ec. now inversion Ec.
  - split; [discriminate|]. split; [exact Hfirst | exact Hlast].
Qed.

Lemma build_event_summary_witness :
  exists cal event summary,
    build_event row_blank tt 30 = Ok cal
    /\ subcomponents "VEVENT" cal = [event]
    /\ prop "summary" event = [VText summary]
    /\ summary <> EmptyString.
Proof.
  assert (Hb : exists cal, build_event row_blank tt 30 = Ok cal)
    by (eexists; vm_compute; reflexivity).
  destruct Hb as [cal Hb]. exists cal.
  destruct (build_event_summary row_blank tt 30 cal Hb) as (event & s & E & Hs & Hne & _).
  exists event, s. repeat split; assumption.
Defined.

(** ** How long an event lasts *)

Section Duration.
Context {T : Type}.

Lemma same_day_later (y m d h1 mi1 s1 h2 mi2 s2 : Z) (tz : option T) :
  let a := MkDatetime y m d h1 mi1 s1 0 tz in
  let b := MkDatetime y m d h2 mi2 s2 0 tz in
  valid_datetime a = true ->
  valid_datetime b = true ->
  base_compare b a = Gt ->
  0 < wall_microseconds b - wall_microseconds a < 86400 * 1000000.
Proof.
  intros a b Ha Hb Hc.
  apply valid_datetime_spec in Ha as [_ Ha]. apply valid_time_spec in Ha.
  apply valid_datetime_spec in Hb as [_ Hb]. apply valid_time_spec in Hb.
  cbn [a b hour minute second microsecond] in Ha, Hb.
  unfold base_compare, fields in Hc. cbn [a b year month day hour minute second
    microsecond lex_compare] in Hc.
  rewrite !Z.compare_refl in Hc.
  unfold wall_microseconds.
  cbn [a b year month day hour minute second microsecond].
  destruct (Z.compare_spec h2 h1); [|discriminate|lia].
  destruct (Z.compare_spec mi2 mi1); [|discriminate|lia].
  destruct (Z.compare_spec s2 s1); [discriminate|discriminate|lia].
Qed.

End Duration.

(** X12. The event of a produced calendar lasts more than zero and
    less than 24 hours on the wall clock, a whole number of seconds,
    and its end carries the [tzinfo] of its start. *)
Theorem build_event_duration `{Platform} `{!Parser}
    (row : dict) (tz : TzInfo) (alert : Z) (cal : component) :
  build_event row tz alert = Ok cal ->
  exists event dtstart dtend,
    subcomponents "VEVENT" cal = [event]
    /\ prop "dtstart" event = [VDatetime dtstart]
    /\ prop "dtend" event = [VDatetime dtend]
    /\ 0 < wall_microseconds dtend - wall_microseconds dtstart < 86400 * 1000000
    /\ (wall_microseconds dtend - wall_microseconds dtstart) mod 1000000 = 0
    /\ tzinfo dtend = tzinfo dtstart.
Proof.
  intros Hb.
  destruct (build_event_inv row tz alert cal Hb)
    as (dc & start & tc & st & et & dtstart & cand & dtend & trigger
        & _ & _ & _ & _ & Hs & Hc & He & _ & ->).
  eexists. exists dtstart, dtend.
  split; [apply calendar_events, event_of_props|].
  split; [apply event_of_props|]. split; [apply event_of_props|].
  apply replace_time_ok in Hs as [Es Hvs]. apply replace_time_ok in Hc as [Ec Hvc].
  assert (Htz : tzinfo cand = tzinfo dtstart) by now rewrite Es, Ec.
  destruct (event_end_spec dtstart cand dtend Hvs Htz He) as (_ & _ & Hgt & Hle).
  destruct (base_compare cand dtstart) eqn:Hcmp.
  - destruct Hle as [Hadd Hw]; [discriminate|].
    destruct (datetime_add_hour dtstart dtend Hvs Hadd) as (_ & Htz' & _ & _).
    rewrite Hw. replace (_ + _ - _) with (3600 * 1000000) by lia.
    repeat split; try assumption; lia.
  - destruct Hle as [Hadd Hw]; [discriminate|].
    destruct (datetime_add_hour dtstart dtend Hvs Hadd) as (_ & Htz' & _ & _).
    rewrite Hw. replace (_ + _ - _) with (3600 * 1000000) by lia.
    repeat split; try assumption; lia.
  - rewrite (Hgt eq_refl).
    assert (Hd : 0 < wall_microseconds cand - wall_microseconds dtstart
                 < 86400 * 1000000).
    { subst dtstart cand. now apply same_day_later. }
    split; [exact Hd|]. split; [|exact Htz].
    subst dtstart cand. unfold wall_microseconds.
    cbn [year month day hour minute second microsecond].
    match goal with |- (?a * 1000000 + 0 - (?b * 1000000 + 0)) mod _ = _ =>
      replace (a * 1000000 + 0 - (b * 1000000 + 0)) with ((a - b) * 1000000) by lia
    end.
    apply Z.mod_mul. lia.
Qed.

Lemma build_event_duration_witness :
  exists cal event dtstart dtend,
    build_event row_overnight tt 30 = Ok cal
    /\ subcomponents "VEVENT" cal = [event]
    /\ prop "dtstart" event = [VDatetime dtstart]
    /\ prop "dtend" event = [VDatetime dtend]
    /\ 0 < wall_microseconds dtend - wall_microseconds dtstart < 86400 * 1000000.
Proof.
  assert (Hb : exists cal, build_event row_overnight tt 30 = Ok cal)
    by (eexists; vm_compute; reflexivity).
  destruct Hb as [cal Hb]. exists cal.
  destruct (build_event_duration row_overnight tt 30 cal Hb)
    as (event & ds & de & E & Hs & He & Hd & _).
  exists event, ds, de. repeat split; try assumption; apply Hd.
Defined.

(** ** Normalizing twice *)

Lemma lower_char_idem c : Str.lower_char (Str.lower_char c) = Str.lower_char c.
Proof. destruct c as [[] [] [] [] [] [] [] []]; reflexivity. Qed.

Lemma isspace_lower_char c : Str.isspace (Str.lower_char c) = Str.isspace c.
Proof. destruct c as [[] [] [] [] [] [] [] []]; reflexivity. Qed.

Lemma lower_idem s : Str.lower (Str.lower s) = Str.lower s.
Proof.
  induction s as [|c s IH]; [reflexivity|].
  cbn [Str.lower]. now rewrite lower_char_idem, IH.
Qed.

Lemma lstrip_lower s :
  Str.lstrip Str.isspace (Str.lower s) = Str.lower (Str.lstrip Str.isspace s).
Proof.
  induction s as [|c s IH]; [reflexivity|].
  cbn [Str.lower Str.lstrip]. rewrite isspace_lower_char.
  destruct (Str.isspace c); [exact IH | reflexivity].
Qed.

Lemma rstrip_lower s :
  Str.rstrip Str.isspace (Str.lower s) = Str.lower (Str.rstrip Str.isspace s).
Proof.
  induction s as [|c s IH]; [reflexivity|].
  cbn [Str.lower]. rewrite !rstrip_cons, IH, isspace_lower_char.
  destruct (Str.rstrip Str.isspace s); cbn [Str.lower String.eqb andb];
    [destruct (Str.isspace c)|]; reflexivity.
Qed.

Lemma strip_lower s : Str.strip (Str.lower s) = Str.lower (Str.strip s).
Proof. unfold Str.strip, Str.strip_with. now rewrite lstrip_lower, rstrip_lower. Qed.

Lemma rstrip_idem p s : Str.rstrip p (Str.rstrip p s) = Str.rstrip p s.
Proof.
  induction s as [|c s IH]; [reflexivity|].
  rewrite rstrip_cons.
  destruct (String.eqb (Str.rstrip p s) "" && p c) eqn:E; [reflexivity|].
  now rewrite rstrip_cons, IH, E.
Qed.

Lemma strip_with_idem p s :
  Str.strip_with p (Str.strip_with p s) = Str.strip_with p s.
Proof.
  destruct (strip_with_ends p s) as [Hfirst _].
  unfold Str.strip_with at 1.
  destruct (Str.strip_with p s) as [|c r] eqn:E; [reflexivity|].
  cbn [Str.lstrip]. rewrite (Hfirst c r eq_refl). rewrite <- E.
  unfold Str.strip_with. apply rstrip_idem.
Qed.

Lemma header_idem h :
  Str.lower (Str.strip (Str.lower (Str.strip h))) = Str.lower (Str.strip h).
Proof.
  rewrite strip_lower, lower_idem. unfold Str.strip. now rewrite strip_with_idem.
Qed.

Lemma headers_idem (cols : list string) :
  map (fun h => Str.lower (Str.strip h)) (map (fun h => Str.lower (Str.strip h)) cols)
  = map (fun h => Str.lower (Str.strip h)) cols.
Proof.
  induction cols as [|c cols IH]; [reflexivity|].
  cbn [map]. now rewrite header_idem, IH.
Qed.

(** X13. Normalizing is idempotent: the frame [normalize_columns]
    returns is returned unchanged by a second call; its rows and its
    number of columns are those of the frame given. *)
Theorem normalize_columns_idempotent `{Platform} (df df' : DataFrame) :
  normalize_columns df = Ok df' ->
  normalize_columns df' = Ok df'
  /\ rows df' = rows df
  /\ length (columns df') = length (columns df).
Proof.
  rewrite !normalize_columns_cases.
  destruct (Spec.missing_columns (columns df)) eqn:Hm; [|discriminate].
  intros E. injection E as <-. cbn [rename_columns columns rows].
  split; [|split; [reflexivity | apply length_map]].
  unfold Spec.missing_columns in *. rewrite headers_idem, Hm.
  unfold rename_columns. cbn [columns rows]. now rewrite headers_idem.
Qed.

Lemma normalize_columns_idempotent_witness :
  exists df',
    normalize_columns frame1 = Ok df' /\ normalize_columns df' = Ok df'.
Proof.
  assert (Hn : exists df', normalize_columns frame1 = Ok df')
    by (eexists; vm_compute; reflexivity).
  destruct Hn as [df' Hn]. exists df'. split; [exact Hn|].
  exact (proj1 (normalize_columns_idempotent frame1 df' Hn)).
Defined.

(** ** The keys of a row *)

Section Keys.
Context `{Platform}.

Lemma dict_lookup_set key v (row : dict) key' :
  dict_lookup (dict_set key v row) key'
  = if String.eqb key key' then Some v else dict_lookup row key'.
Proof.
  induction row as [|[k w] row IH]; cbn [dict_set dict_lookup]; [reflexivity|].
  destruct (String.eqb_spec k key) as [->|Hne]; cbn [dict_lookup].
  - destruct (String.eqb key key'); reflexivity.
  - rewrite IH. destruct (String.eqb_spec k key') as [->|_]; [|reflexivity].
    destruct (String.eqb_spec key key') as [->|_]; [congruence | reflexivity].
Qed.

Lemma to_dict_keys (row : series) key : forall acc : dict,
  is_Some (dict_lookup (fold_left (fun d kv => dict_set (fst kv) (snd kv) d) row acc) key)
  <-> is_Some (dict_lookup acc key) \/ key ∈ map fst row.
Proof.
  induction row as [|[k v] row IH]; intros acc; cbn [fold_left map fst snd].
  - split; [now left | intros [?|Hin]; [assumption | inversion Hin]].
  - rewrite IH, dict_lookup_set, elem_of_cons.
    destruct (String.eqb_spec k key) as [->|Hne].
    + split; [intros _; right; now left | intros _; left; eauto].
    + split; [tauto | intros [?|[?|?]]; [tauto | congruence | tauto]].
Qed.

Lemma combine_keys {A B} (ks : list A) (vs : list B) :
  length ks = length vs -> map fst (combine ks vs) = ks.
Proof.
  revert vs. induction ks as [|k ks IH]; intros [|v vs] Hl; try discriminate;
    [reflexivity|].
  cbn [combine map fst]. f_equal. apply IH. now injection Hl.
Qed.

End Keys.

(** X14. After [normalize_columns] succeeded on a frame whose rows
    have one cell per column, the dict of every row has each of the
    four required keys: the lookups of the date and time cells in
    [build_event] do not raise [KeyError] in [main]. *)
Theorem normalized_rows_have_required_keys `{Platform}
    (df df' : DataFrame) (idx : Z) (row : series) (key : string) :
  normalize_columns df = Ok df' ->
  Forall (fun cells => length cells = length (columns df)) (rows df) ->
  (idx, row) ∈ iterrows df' ->
  key ∈ REQUIRED_COLUMNS ->
  exists v, dict_item (to_dict row) key = Ok v.
Proof.
  intros Hn Hrect Hin Hkey.
  rewrite normalize_columns_cases in Hn.
  destruct (Spec.missing_columns (columns df)) eqn:Hm; [|discriminate].
  injection Hn as <-.
  apply list_elem_of_lookup in Hin as [i Hi]. unfold iterrows in Hi.
  apply iterrows_from_lookup in Hi as (_ & cells & Hc & ->).
  cbn [rename_columns columns rows] in *.
  assert (Hlen : length cells = length (columns df)).
  { rewrite Forall_forall in Hrect. apply Hrect.
    apply list_elem_of_lookup. eauto. }
  assert (Hk : key ∈ map (fun h => Str.lower (Str.strip h)) (columns df)).
  { apply (proj1 (missing_columns_nil _) Hm).
    unfold REQUIRED_COLUMNS in Hkey. unfold Spec.required_sorted.
    set_unfold. tauto. }
  assert (Hs : is_Some (dict_lookup
                 (to_dict (combine (map (fun h => Str.lower (Str.strip h)) (columns df))
                             cells)) key)).
  { unfold to_dict. apply to_dict_keys. right.
    rewrite combine_keys; [assumption|]. now rewrite length_map. }
  destruct Hs as [v Hv]. exists v. unfold dict_item. now rewrite Hv.
Qed.

Lemma normalized_rows_have_required_keys_witness :
  exists v,
    dict_item
      (to_dict (combine ["title"; "date"; "time"; "venue"]
                  [CStr "   "; CStr "2024-03-05"; CStr "10:00 PM - 1:00 AM"; CStr ""]))
      "time" = Ok v.
Proof.
  refine (normalized_rows_have_required_keys frame1
            (rename_columns (fun h => Str.lower (Str.strip h)) frame1) 1 _ "time"
            _ _ _ _).
  - vm_compute. reflexivity.
  - repeat constructor.
  - unfold iterrows. cbn [iterrows_from rename_columns rows columns frame1 map].
    apply list_elem_of_further, list_elem_of_here.
  - unfold REQUIRED_COLUMNS. set_unfold. tauto.
Defined.

(** ** File names of a run *)

Section Names.
Context `{Platform} `{!Parser} `{!Serializer}.

Lemma main_loop_prefix (a : Args) (tz : TzInfo) todo : forall done_,
  exists (n : nat) cals,
    built a tz (take n todo) cals
    /\ (main_loop a tz todo done_).1 = done_ ++ all_written a (take n todo) cals.
Proof.
  induction todo as [|[idx row] todo IH]; intros done_.
  - exists 0%nat, []. split; [constructor | cbn; now rewrite app_nil_r].
  - cbn [main_loop].
    destruct (build_event (to_dict row) tz (alert_minutes_arg a)) as [cal|e] eqn:Hb.
    + destruct (IH (done_ ++ [FileWritten (output a) (row_filename idx row) (to_ical cal);
                             Printed (output a) (row_filename idx row)]))
        as (n & cals & Hbuilt & E).
      exists (S n), (cal :: cals). split; [constructor; assumption|].
      rewrite E. unfold all_written. cbn [take zip_with concat fst snd].
      unfold written at 2. now rewrite <- app_assoc.
    + exists 0%nat, []. split; [constructor | cbn; now rewrite app_nil_r].
Qed.

Lemma written_names_all (a : Args) (tz : TzInfo) todo cals :
  built a tz todo cals ->
  written_names (all_written a todo cals)
  = map (fun ir : Z * series => row_filename ir.1 ir.2) todo.
Proof.
  induction 1 as [|[idx row] cal todo cals _ _ IH]; [reflexivity|].
  unfold all_written. cbn [zip_with concat]. unfold written_names.
  rewrite flat_map_app. cbn [written flat_map fst snd app map]. f_equal. exact IH.
Qed.

Lemma row_filenames_nodup (cols : list string) rs (n : nat) :
  NoDup (map (fun ir : Z * series => row_filename ir.1 ir.2)
           (take n (iterrows_from 0 cols rs))).
Proof.
  apply NoDup_alt. intros i j name Hi Hj.
  change (map ?f ?l) with (f <$> l) in Hi, Hj.
  rewrite list_lookup_fmap in Hi, Hj.
  destruct (take n (iterrows_from 0 cols rs) !! i) as [[idx1 row1]|] eqn:E1;
    [|discriminate].
  destruct (take n (iterrows_from 0 cols rs) !! j) as [[idx2 row2]|] eqn:E2;
    [|discriminate].
  cbn in Hi, Hj. injection Hi as Hi. injection Hj as Hj.
  apply lookup_take_Some in E1 as [E1 _]. apply lookup_take_Some in E2 as [E2 _].
  apply iterrows_from_lookup in E1 as [-> _].
  apply iterrows_from_lookup in E2 as [-> _].
  rewrite <- Hj in Hi. unfold row_filename in Hi.
  apply safe_filename_index in Hi as [_ Hi]. lia.
Qed.

End Names.

(** X15. No run writes two files of the same name, whatever the
    titles: the names of the files written are pairwise distinct, also
    in a run that an exception ends. *)
Theorem main_never_overwrites `{Platform} `{!Parser} `{!Serializer}
    (a : Args) (df : DataFrame) :
  NoDup (written_names (main a df).1).
Proof.
  unfold main.
  destruct (pytz_timezone (timezone a)) as [tz|e1]; [|constructor].
  destruct (normalize_columns df) as [df'|e2]; [|constructor].
  destruct (main_loop_prefix a tz (iterrows df') [Mkdir (output a)])
    as (n & cals & Hb & ->).
  unfold written_names. rewrite flat_map_app. cbn [flat_map app].
  fold (written_names (all_written a (take n (iterrows df')) cals)).
  rewrite (written_names_all a tz _ _ Hb). apply row_filenames_nodup.
Qed.

Section Whole.
Context `{Platform} `{!Parser} `{!Serializer}.

Lemma built_exists (a : Args) (tz : TzInfo) (todo : list (Z * series)) :
  Forall (fun ir : Z * series =>
            exists cal, build_event (to_dict ir.2) tz (alert_minutes_arg a) = Ok cal)
    todo ->
  exists cals, built a tz todo cals.
Proof.
  induction 1 as [|ir todo [cal Hcal] _ [cals IH]].
  - exists []. constructor.
  - exists (cal :: cals). constructor; assumption.
Qed.

End Whole.

(** X16. [main] returns normally, with one file written per row and
    named from the title cell of the row's dict, when the time zone
    is known, the required columns are present, the normalized
    headers are pairwise distinct, the alert is within what a
    [timedelta] holds, and the date and time cells of every row parse
    to values in range with the start not in the last hour of
    9999-12-31. *)
Theorem main_succeeds `{Platform} `{!Parser} `{!Serializer}
    (a : Args) (df df' : DataFrame) (tz : TzInfo) :
  pytz_timezone (timezone a) = Ok tz ->
  normalize_columns df = Ok df' ->
  NoDup (columns df') ->
  Z.abs (alert_minutes_arg a) <= 1439999998560 ->
  Forall (fun ir : Z * series =>
            exists date_cell time_cell start st et,
              dict_lookup (to_dict ir.2) "date" = Some date_cell
              /\ parse_datetime date_cell tz = Ok start
              /\ dict_lookup (to_dict ir.2) "time" = Some time_cell
              /\ parse_time_range time_cell = Ok (st, et)
              /\ valid_datetime start = true
              /\ valid_time st = true
              /\ valid_time et = true
              /\ (t_hour st < 23
                  \/ (year start, month start, day start) <> (9999, 12, 31)))
    (iterrows df') ->
  exists cals,
    built a tz (iterrows df') cals
    /\ main a df = (Mkdir (output a) :: all_written a (iterrows df') cals, Ok tt)
    /\ Forall (fun ir : Z * series =>
                 series_get ir.2 "title" (CStr "event")
                 = dict_get (to_dict ir.2) "title" (CStr "event"))
         (iterrows df').
Proof.
  intros Htz Hdf Hnd Halert Hrows.
  destruct (built_exists a tz (iterrows df')) as [cals Hb].
  { eapply Forall_impl; [exact Hrows|]. cbn beta.
    intros [idx row] (dc & tc & start & st & et & Hd & Hs & Ht & Hr & Hv & Hvs & Hve & Hroom).
    cbn [snd] in *.
    now apply (build_event_total _ tz _ dc tc start st et). }
  exists cals. split; [exact Hb|]. split; [|now apply iterrows_title_cell].
  unfold main. rewrite Htz, Hdf.
  now rewrite (main_loop_ok a tz _ cals).
Qed.

Lemma main_succeeds_witness :
  exists cals,
    main args1 frame1
    = (Mkdir "ics_output"
         :: all_written args1
              (iterrows (rename_columns (fun h => Str.lower (Str.strip h)) frame1)) cals,
       Ok tt).
Proof.
  destruct (main_succeeds args1 frame1
              (rename_columns (fun h => Str.lower (Str.strip h)) frame1) tt)
    as (cals & _ & E & _).
  - reflexivity.
  - vm_compute. reflexivity.
  - apply (bool_decide_unpack _). vm_compute. exact I.
  - vm_compute. discriminate.
  - unfold iterrows. cbn [iterrows_from rename_columns rows columns frame1].
    apply List.Forall_cons; [|apply List.Forall_cons; [|apply List.Forall_nil]].
    + do 5 eexists.
      split; [vm_compute; reflexivity|]. split; [vm_compute; reflexivity|].
      split; [vm_compute; reflexivity|]. split; [vm_compute; reflexivity|].
      split; [vm_compute; reflexivity|]. split; [vm_compute; reflexivity|].
      split; [vm_compute; reflexivity|]. left. vm_compute. reflexivity.
    + do 5 eexists.
      split; [vm_compute; reflexivity|]. split; [vm_compute; reflexivity|].
      split; [vm_compute; reflexivity|]. split; [vm_compute; reflexivity|].
      split; [vm_compute; reflexivity|]. split; [vm_compute; reflexivity|].
      split; [vm_compute; reflexivity|]. left. vm_compute. reflexivity.
  - exists cals. exact E.
Defined.
